(** * USB CDC to UART bridge (cdc_gg11.c): shallow embedding and properties

    The driver keeps its coordination state in file-scope variables and
    talks to three collaborators: the USB device stack (USBD_Read,
    USBD_Write), the LDMA controller (LDMA_StartTransfer, LDMA_StopTransfer,
    LDMA_TransferRemainingCount) and the USB timer (USBTIMER_Start,
    USBTIMER_Stop).  The embedding passes one explicit [State] holding the
    driver's variables, the collaborators' observable state and a
    chronological log of every call made into them.  Handlers live in a
    small state-and-fault monad: the only fault is the unguarded division
    of the CDC_RX_TIMEOUT macro. *)

From Stdlib Require Import ZArith List Bool Lia.
Import ListNotations.
Open Scope Z_scope.

(** ** Machine integers *)

(** Conversion to [uint32_t]. *)
Definition u32 (x : Z) : Z := x mod 2 ^ 32.

(** Conversion to [int] (32-bit two's complement). *)
Definition s32 (x : Z) : Z := (x + 2 ^ 31) mod 2 ^ 32 - 2 ^ 31.

(** Conversion to [uint8_t]. *)
Definition u8 (x : Z) : Z := x mod 2 ^ 8.

(** The [xferCnt] member of an LDMA descriptor is an 11-bit bit-field. *)
Definition xferCnt_field (x : Z) : Z := x mod 2 ^ 11.

(** The field holds the number of unit transfers minus one: the descriptor
    initialisers [DmaSetup] uses take the "number of bytes per transfer"
    and store it less one, and [UsbDataReceived] and [DmaTxComplete] write
    the field itself.  A byte-wide transfer whose field is [cnt] therefore
    moves [cnt + 1] bytes. *)
Definition xferCnt_bytes (cnt : Z) : Z := cnt + 1.

(** The [SL_MAX] macro on unsigned operands: [(a) > (b) ? (a) : (b)]. *)
Definition SL_MAX (a b : Z) : Z := if a >? b then a else b.

(** ** Constants that come from headers outside this file

    [usbconfig.h], [em_usb.h] and the device header are not part of the
    translation unit, so their values are parameters of the development. *)
Record Platform : Type := {
  USB_FS_BULK_EP_MAXSIZE : Z;
  CDC_UART_TX_DMA_CHANNEL : Z;
  CDC_UART_RX_DMA_CHANNEL : Z;
  CDC_CTRL_INTERFACE_NO : Z;
  USART_FRAME_DATABITS_FIVE : Z;
  USART_FRAME_DATABITS_SIX : Z;
  USART_FRAME_DATABITS_SEVEN : Z;
  USART_FRAME_DATABITS_EIGHT : Z;
  USART_FRAME_DATABITS_SIXTEEN : Z;
  USART_FRAME_PARITY_NONE : Z;
  USART_FRAME_PARITY_ODD : Z;
  USART_FRAME_PARITY_EVEN : Z;
  USART_FRAME_STOPBITS_ONE : Z;
  USART_FRAME_STOPBITS_ONEANDAHALF : Z;
  USART_FRAME_STOPBITS_TWO : Z
}.

(** Packet size when transmitting on USB: the capacity of a UART receive
    buffer. *)
Definition CDC_USB_TX_BUF_SIZ : Z := 127.

(** ** Data model *)

Inductive USB_Status_TypeDef : Type :=
| USB_STATUS_OK
| USB_STATUS_REQ_ERR
| USB_STATUS_REQ_UNHANDLED
| USB_STATUS_OTHER (code : Z).

Definition is_OK (st : USB_Status_TypeDef) : bool :=
  match st with USB_STATUS_OK => true | _ => false end.

Inductive USBD_State_TypeDef : Type :=
| USBD_STATE_NONE
| USBD_STATE_ATTACHED
| USBD_STATE_POWERED
| USBD_STATE_DEFAULT
| USBD_STATE_ADDRESSED
| USBD_STATE_CONFIGURED
| USBD_STATE_SUSPENDED.

Definition is_CONFIGURED (st : USBD_State_TypeDef) : bool :=
  match st with USBD_STATE_CONFIGURED => true | _ => false end.

Definition is_SUSPENDED (st : USBD_State_TypeDef) : bool :=
  match st with USBD_STATE_SUSPENDED => true | _ => false end.

(** [cdcLineCoding_TypeDef]: packed, 8 bytes, of which the host sets 7. *)
Record cdcLineCoding_TypeDef : Type := {
  dwDTERate : Z;
  bCharFormat : Z;
  bParityType : Z;
  bDataBits : Z;
  dummy : Z
}.

(** The four statically allocated data buffers, named by array and index,
    and the line-coding variable, which doubles as a control-transfer
    buffer. *)
Inductive Buffer : Type :=
| usbRxBuffer (i : Z)
| uartRxBuffer (i : Z)
| lineCodingBuffer.

Definition Buffer_eqb (a b : Buffer) : bool :=
  match a, b with
  | usbRxBuffer i, usbRxBuffer j => i =? j
  | uartRxBuffer i, uartRxBuffer j => i =? j
  | lineCodingBuffer, lineCodingBuffer => true
  | _, _ => false
  end.

Inductive Endpoint : Type := EP0 | CDC_EP_DATA_OUT | CDC_EP_DATA_IN.

(** The two LDMA channels the driver uses; their numbers come from
    [usbconfig.h]. *)
Inductive Channel : Type := CH_UART_TX | CH_UART_RX.

(** Calls made into the collaborators, in the order they are logged. *)
Inductive Effect : Type :=
| E_USBD_Read (ep : Endpoint) (buf : Buffer) (len : Z)
| E_USBD_Write (ep : Endpoint) (buf : Buffer) (len : Z)
| E_LDMA_StartTransfer_Tx (src : Buffer) (xferCnt : Z)
| E_LDMA_StartTransfer_Rx (dst : Buffer)
| E_LDMA_StopTransfer (ch : Z)
| E_USBTIMER_Start (timeout : Z)
| E_USBTIMER_Stop
| E_UART_FRAME (frame : Z)
| E_USART_BaudrateAsyncSet (baudrate : Z).

(** The driver's file-scope variables and the two descriptor fields it
    rewrites at run time. *)
Record Globals : Type := {
  cdcLineCoding : cdcLineCoding_TypeDef;
  usbRxIndex : Z;
  usbBytesReceived : Z;
  uartRxIndex : Z;
  uartRxCount : Z;
  LastUsbTxCnt : Z;
  dmaRxCompleted : bool;
  usbRxActive : bool;
  dmaTxActive : bool;
  usbTxActive : bool;
  dmaRxActive : bool;
  descriptorTx_xferCnt : Z;
  descriptorTx_srcAddr : Buffer;
  descriptorRx_dstAddr : Buffer
}.

(** What the collaborators hold.  A transfer is in a list from the call
    that starts it until its completion is delivered (or it is stopped), so
    that a second start before the first completion shows as a list of
    length two. *)
Record Hardware : Type := {
  uart_FRAME : Z;
  uart_baudrate : Z;
  timer : option Z;
  usb_out : list Buffer;
  usb_in : list (Buffer * Z);
  dma_tx : list (Buffer * Z);
  dma_rx : list Buffer;
  rx_remaining : Z
}.

Record State : Type := {
  g : Globals;
  hw : Hardware;
  trace : list Effect
}.

(** ** Field updates *)

Definition set_cdcLineCoding (v : cdcLineCoding_TypeDef) (x : Globals) : Globals :=
    {| cdcLineCoding := v; usbRxIndex := usbRxIndex x; usbBytesReceived :=
     usbBytesReceived x; uartRxIndex := uartRxIndex x; uartRxCount :=
     uartRxCount x; LastUsbTxCnt := LastUsbTxCnt x; dmaRxCompleted :=
     dmaRxCompleted x; usbRxActive := usbRxActive x; dmaTxActive :=
     dmaTxActive x; usbTxActive := usbTxActive x; dmaRxActive := dmaRxActive
     x; descriptorTx_xferCnt := descriptorTx_xferCnt x; descriptorTx_srcAddr
     := descriptorTx_srcAddr x; descriptorRx_dstAddr := descriptorRx_dstAddr
     x |}.

Definition set_usbRxIndex (v : Z) (x : Globals) : Globals :=
    {| cdcLineCoding := cdcLineCoding x; usbRxIndex := v; usbBytesReceived
     := usbBytesReceived x; uartRxIndex := uartRxIndex x; uartRxCount :=
     uartRxCount x; LastUsbTxCnt := LastUsbTxCnt x; dmaRxCompleted :=
     dmaRxCompleted x; usbRxActive := usbRxActive x; dmaTxActive :=
     dmaTxActive x; usbTxActive := usbTxActive x; dmaRxActive := dmaRxActive
     x; descriptorTx_xferCnt := descriptorTx_xferCnt x; descriptorTx_srcAddr
     := descriptorTx_srcAddr x; descriptorRx_dstAddr := descriptorRx_dstAddr
     x |}.

Definition set_usbBytesReceived (v : Z) (x : Globals) : Globals :=
    {| cdcLineCoding := cdcLineCoding x; usbRxIndex := usbRxIndex x;
     usbBytesReceived := v; uartRxIndex := uartRxIndex x; uartRxCount :=
     uartRxCount x; LastUsbTxCnt := LastUsbTxCnt x; dmaRxCompleted :=
     dmaRxCompleted x; usbRxActive := usbRxActive x; dmaTxActive :=
     dmaTxActive x; usbTxActive := usbTxActive x; dmaRxActive := dmaRxActive
     x; descriptorTx_xferCnt := descriptorTx_xferCnt x; descriptorTx_srcAddr
     := descriptorTx_srcAddr x; descriptorRx_dstAddr := descriptorRx_dstAddr
     x |}.

Definition set_uartRxIndex (v : Z) (x : Globals) : Globals :=
    {| cdcLineCoding := cdcLineCoding x; usbRxIndex := usbRxIndex x;
     usbBytesReceived := usbBytesReceived x; uartRxIndex := v; uartRxCount
     := uartRxCount x; LastUsbTxCnt := LastUsbTxCnt x; dmaRxCompleted :=
     dmaRxCompleted x; usbRxActive := usbRxActive x; dmaTxActive :=
     dmaTxActive x; usbTxActive := usbTxActive x; dmaRxActive := dmaRxActive
     x; descriptorTx_xferCnt := descriptorTx_xferCnt x; descriptorTx_srcAddr
     := descriptorTx_srcAddr x; descriptorRx_dstAddr := descriptorRx_dstAddr
     x |}.

Definition set_uartRxCount (v : Z) (x : Globals) : Globals :=
    {| cdcLineCoding := cdcLineCoding x; usbRxIndex := usbRxIndex x;
     usbBytesReceived := usbBytesReceived x; uartRxIndex := uartRxIndex x;
     uartRxCount := v; LastUsbTxCnt := LastUsbTxCnt x; dmaRxCompleted :=
     dmaRxCompleted x; usbRxActive := usbRxActive x; dmaTxActive :=
     dmaTxActive x; usbTxActive := usbTxActive x; dmaRxActive := dmaRxActive
     x; descriptorTx_xferCnt := descriptorTx_xferCnt x; descriptorTx_srcAddr
     := descriptorTx_srcAddr x; descriptorRx_dstAddr := descriptorRx_dstAddr
     x |}.

Definition set_LastUsbTxCnt (v : Z) (x : Globals) : Globals :=
    {| cdcLineCoding := cdcLineCoding x; usbRxIndex := usbRxIndex x;
     usbBytesReceived := usbBytesReceived x; uartRxIndex := uartRxIndex x;
     uartRxCount := uartRxCount x; LastUsbTxCnt := v; dmaRxCompleted :=
     dmaRxCompleted x; usbRxActive := usbRxActive x; dmaTxActive :=
     dmaTxActive x; usbTxActive := usbTxActive x; dmaRxActive := dmaRxActive
     x; descriptorTx_xferCnt := descriptorTx_xferCnt x; descriptorTx_srcAddr
     := descriptorTx_srcAddr x; descriptorRx_dstAddr := descriptorRx_dstAddr
     x |}.

Definition set_dmaRxCompleted (v : bool) (x : Globals) : Globals :=
    {| cdcLineCoding := cdcLineCoding x; usbRxIndex := usbRxIndex x;
     usbBytesReceived := usbBytesReceived x; uartRxIndex := uartRxIndex x;
     uartRxCount := uartRxCount x; LastUsbTxCnt := LastUsbTxCnt x;
     dmaRxCompleted := v; usbRxActive := usbRxActive x; dmaTxActive :=
     dmaTxActive x; usbTxActive := usbTxActive x; dmaRxActive := dmaRxActive
     x; descriptorTx_xferCnt := descriptorTx_xferCnt x; descriptorTx_srcAddr
     := descriptorTx_srcAddr x; descriptorRx_dstAddr := descriptorRx_dstAddr
     x |}.

Definition set_usbRxActive (v : bool) (x : Globals) : Globals :=
    {| cdcLineCoding := cdcLineCoding x; usbRxIndex := usbRxIndex x;
     usbBytesReceived := usbBytesReceived x; uartRxIndex := uartRxIndex x;
     uartRxCount := uartRxCount x; LastUsbTxCnt := LastUsbTxCnt x;
     dmaRxCompleted := dmaRxCompleted x; usbRxActive := v; dmaTxActive :=
     dmaTxActive x; usbTxActive := usbTxActive x; dmaRxActive := dmaRxActive
     x; descriptorTx_xferCnt := descriptorTx_xferCnt x; descriptorTx_srcAddr
     := descriptorTx_srcAddr x; descriptorRx_dstAddr := descriptorRx_dstAddr
     x |}.

Definition set_dmaTxActive (v : bool) (x : Globals) : Globals :=
    {| cdcLineCoding := cdcLineCoding x; usbRxIndex := usbRxIndex x;
     usbBytesReceived := usbBytesReceived x; uartRxIndex := uartRxIndex x;
     uartRxCount := uartRxCount x; LastUsbTxCnt := LastUsbTxCnt x;
     dmaRxCompleted := dmaRxCompleted x; usbRxActive := usbRxActive x;
     dmaTxActive := v; usbTxActive := usbTxActive x; dmaRxActive :=
     dmaRxActive x; descriptorTx_xferCnt := descriptorTx_xferCnt x;
     descriptorTx_srcAddr := descriptorTx_srcAddr x; descriptorRx_dstAddr :=
     descriptorRx_dstAddr x |}.

Definition set_usbTxActive (v : bool) (x : Globals) : Globals :=
    {| cdcLineCoding := cdcLineCoding x; usbRxIndex := usbRxIndex x;
     usbBytesReceived := usbBytesReceived x; uartRxIndex := uartRxIndex x;
     uartRxCount := uartRxCount x; LastUsbTxCnt := LastUsbTxCnt x;
     dmaRxCompleted := dmaRxCompleted x; usbRxActive := usbRxActive x;
     dmaTxActive := dmaTxActive x; usbTxActive := v; dmaRxActive :=
     dmaRxActive x; descriptorTx_xferCnt := descriptorTx_xferCnt x;
     descriptorTx_srcAddr := descriptorTx_srcAddr x; descriptorRx_dstAddr :=
     descriptorRx_dstAddr x |}.

Definition set_dmaRxActive (v : bool) (x : Globals) : Globals :=
    {| cdcLineCoding := cdcLineCoding x; usbRxIndex := usbRxIndex x;
     usbBytesReceived := usbBytesReceived x; uartRxIndex := uartRxIndex x;
     uartRxCount := uartRxCount x; LastUsbTxCnt := LastUsbTxCnt x;
     dmaRxCompleted := dmaRxCompleted x; usbRxActive := usbRxActive x;
     dmaTxActive := dmaTxActive x; usbTxActive := usbTxActive x; dmaRxActive
     := v; descriptorTx_xferCnt := descriptorTx_xferCnt x;
     descriptorTx_srcAddr := descriptorTx_srcAddr x; descriptorRx_dstAddr :=
     descriptorRx_dstAddr x |}.

Definition set_descriptorTx_xferCnt (v : Z) (x : Globals) : Globals :=
    {| cdcLineCoding := cdcLineCoding x; usbRxIndex := usbRxIndex x;
     usbBytesReceived := usbBytesReceived x; uartRxIndex := uartRxIndex x;
     uartRxCount := uartRxCount x; LastUsbTxCnt := LastUsbTxCnt x;
     dmaRxCompleted := dmaRxCompleted x; usbRxActive := usbRxActive x;
     dmaTxActive := dmaTxActive x; usbTxActive := usbTxActive x; dmaRxActive
     := dmaRxActive x; descriptorTx_xferCnt := v; descriptorTx_srcAddr :=
     descriptorTx_srcAddr x; descriptorRx_dstAddr := descriptorRx_dstAddr x
     |}.

Definition set_descriptorTx_srcAddr (v : Buffer) (x : Globals) : Globals :=
    {| cdcLineCoding := cdcLineCoding x; usbRxIndex := usbRxIndex x;
     usbBytesReceived := usbBytesReceived x; uartRxIndex := uartRxIndex x;
     uartRxCount := uartRxCount x; LastUsbTxCnt := LastUsbTxCnt x;
     dmaRxCompleted := dmaRxCompleted x; usbRxActive := usbRxActive x;
     dmaTxActive := dmaTxActive x; usbTxActive := usbTxActive x; dmaRxActive
     := dmaRxActive x; descriptorTx_xferCnt := descriptorTx_xferCnt x;
     descriptorTx_srcAddr := v; descriptorRx_dstAddr := descriptorRx_dstAddr
     x |}.

Definition set_descriptorRx_dstAddr (v : Buffer) (x : Globals) : Globals :=
    {| cdcLineCoding := cdcLineCoding x; usbRxIndex := usbRxIndex x;
     usbBytesReceived := usbBytesReceived x; uartRxIndex := uartRxIndex x;
     uartRxCount := uartRxCount x; LastUsbTxCnt := LastUsbTxCnt x;
     dmaRxCompleted := dmaRxCompleted x; usbRxActive := usbRxActive x;
     dmaTxActive := dmaTxActive x; usbTxActive := usbTxActive x; dmaRxActive
     := dmaRxActive x; descriptorTx_xferCnt := descriptorTx_xferCnt x;
     descriptorTx_srcAddr := descriptorTx_srcAddr x; descriptorRx_dstAddr :=
     v |}.

Definition set_uart_FRAME (v : Z) (x : Hardware) : Hardware :=
    {| uart_FRAME := v; uart_baudrate := uart_baudrate x; timer := timer x;
     usb_out := usb_out x; usb_in := usb_in x; dma_tx := dma_tx x; dma_rx :=
     dma_rx x; rx_remaining := rx_remaining x |}.

Definition set_uart_baudrate (v : Z) (x : Hardware) : Hardware :=
    {| uart_FRAME := uart_FRAME x; uart_baudrate := v; timer := timer x;
     usb_out := usb_out x; usb_in := usb_in x; dma_tx := dma_tx x; dma_rx :=
     dma_rx x; rx_remaining := rx_remaining x |}.

Definition set_timer (v : option Z) (x : Hardware) : Hardware :=
    {| uart_FRAME := uart_FRAME x; uart_baudrate := uart_baudrate x; timer
     := v; usb_out := usb_out x; usb_in := usb_in x; dma_tx := dma_tx x;
     dma_rx := dma_rx x; rx_remaining := rx_remaining x |}.

Definition set_usb_out (v : list Buffer) (x : Hardware) : Hardware :=
    {| uart_FRAME := uart_FRAME x; uart_baudrate := uart_baudrate x; timer
     := timer x; usb_out := v; usb_in := usb_in x; dma_tx := dma_tx x;
     dma_rx := dma_rx x; rx_remaining := rx_remaining x |}.

Definition set_usb_in (v : list (Buffer * Z)) (x : Hardware) : Hardware :=
    {| uart_FRAME := uart_FRAME x; uart_baudrate := uart_baudrate x; timer
     := timer x; usb_out := usb_out x; usb_in := v; dma_tx := dma_tx x;
     dma_rx := dma_rx x; rx_remaining := rx_remaining x |}.

Definition set_dma_tx (v : list (Buffer * Z)) (x : Hardware) : Hardware :=
    {| uart_FRAME := uart_FRAME x; uart_baudrate := uart_baudrate x; timer
     := timer x; usb_out := usb_out x; usb_in := usb_in x; dma_tx := v;
     dma_rx := dma_rx x; rx_remaining := rx_remaining x |}.

Definition set_dma_rx (v : list Buffer) (x : Hardware) : Hardware :=
    {| uart_FRAME := uart_FRAME x; uart_baudrate := uart_baudrate x; timer
     := timer x; usb_out := usb_out x; usb_in := usb_in x; dma_tx := dma_tx
     x; dma_rx := v; rx_remaining := rx_remaining x |}.

Definition set_rx_remaining (v : Z) (x : Hardware) : Hardware :=
    {| uart_FRAME := uart_FRAME x; uart_baudrate := uart_baudrate x; timer
     := timer x; usb_out := usb_out x; usb_in := usb_in x; dma_tx := dma_tx
     x; dma_rx := dma_rx x; rx_remaining := v |}.

(** ** The handler monad: state passing with one fault *)

Inductive Res (A : Type) : Type :=
| Ok (a : A) (s : State)
| DivisionByZero.
Arguments Ok {A} a s.
Arguments DivisionByZero {A}.

Definition M (A : Type) : Type := State -> Res A.

Definition ret {A : Type} (a : A) : M A := fun s => Ok a s.

Definition bind {A B : Type} (c : M A) (k : A -> M B) : M B :=
  fun s => match c s with
           | Ok a s' => k a s'
           | DivisionByZero => DivisionByZero
           end.

Declare Scope cdc_scope.
Delimit Scope cdc_scope with cdc.
Notation "x <- c ;; k" := (bind c (fun x => k))
  (at level 61, c at next level, right associativity) : cdc_scope.
Notation "c ;; k" := (bind c (fun _ => k))
  (at level 61, right associativity) : cdc_scope.
Open Scope cdc_scope.

(** Read a driver variable. *)
Definition rd {A : Type} (f : Globals -> A) : M A := fun s => Ok (f (g s)) s.

(** Assign a driver variable. *)
Definition wr (f : Globals -> Globals) : M unit :=
  fun s => Ok tt {| g := f (g s); hw := hw s; trace := trace s |}.

(** Change the collaborators' state. *)
Definition dev (f : Hardware -> Hardware) : M unit :=
  fun s => Ok tt {| g := g s; hw := f (hw s); trace := trace s |}.

(** Read the collaborators' state. *)
Definition peek {A : Type} (f : Hardware -> A) : M A :=
  fun s => Ok (f (hw s)) s.

(** Append a call to the log. *)
Definition log (e : Effect) : M unit :=
  fun s => Ok tt {| g := g s; hw := hw s; trace := trace s ++ [e] |}.

(** State reached by a handler, when it does not fault. *)
Definition exec {A : Type} (c : M A) (s : State) : option State :=
  match c s with Ok _ s' => Some s' | DivisionByZero => None end.

(** ** The line-coding variable as a 7-byte control-transfer buffer *)

(** Little-endian bytes of a [uint32_t]. *)
Definition le32 (x : Z) : list Z :=
  [x mod 256; (x / 256) mod 256; (x / 65536) mod 256; (x / 16777216) mod 256].

Definition lineCoding_bytes (lc : cdcLineCoding_TypeDef) : list Z :=
  le32 (dwDTERate lc) ++ [bCharFormat lc; bParityType lc; bDataBits lc; dummy lc].

Definition lineCoding_of_bytes (bs : list Z) : cdcLineCoding_TypeDef :=
  {| dwDTERate := nth 0 bs 0 + 256 * nth 1 bs 0 + 65536 * nth 2 bs 0
                  + 16777216 * nth 3 bs 0;
     bCharFormat := nth 4 bs 0;
     bParityType := nth 5 bs 0;
     bDataBits := nth 6 bs 0;
     dummy := nth 7 bs 0 |}.

(** What a control read of at most 7 bytes leaves in the variable: the
    received bytes over the front, the old bytes behind them. *)
Definition overwrite_lineCoding (payload : list Z)
    (lc : cdcLineCoding_TypeDef) : cdcLineCoding_TypeDef :=
  let n := Nat.min (length payload) 7 in
  lineCoding_of_bytes (map u8 (firstn n payload) ++ skipn n (lineCoding_bytes lc)).

(** The bytes a host sends for a given line coding. *)
Definition lineCoding_payload (rate fmt parity bits : Z) : list Z :=
  le32 (u32 rate) ++ [fmt; parity; bits].

(** ** Setup packets *)

Inductive SetupType : Type :=
| USB_SETUP_TYPE_STANDARD | USB_SETUP_TYPE_CLASS | USB_SETUP_TYPE_VENDOR.

Inductive SetupRecipient : Type :=
| USB_SETUP_RECIPIENT_DEVICE | USB_SETUP_RECIPIENT_INTERFACE
| USB_SETUP_RECIPIENT_ENDPOINT | USB_SETUP_RECIPIENT_OTHER.

Inductive SetupDirection : Type := USB_SETUP_DIR_OUT | USB_SETUP_DIR_IN.

Inductive SetupRequest : Type :=
| USB_CDC_GETLINECODING
| USB_CDC_SETLINECODING
| USB_CDC_SETCTRLLINESTATE
| USB_REQUEST_OTHER (code : Z).

Record USB_Setup_TypeDef : Type := {
  Recipient : SetupRecipient;
  Type_ : SetupType;
  Direction : SetupDirection;
  bRequest : SetupRequest;
  wValue : Z;
  wIndex : Z;
  wLength : Z
}.

Definition is_CLASS (t : SetupType) : bool :=
  match t with USB_SETUP_TYPE_CLASS => true | _ => false end.

Definition is_INTERFACE (r : SetupRecipient) : bool :=
  match r with USB_SETUP_RECIPIENT_INTERFACE => true | _ => false end.

Definition is_DIR_IN (d : SetupDirection) : bool :=
  match d with USB_SETUP_DIR_IN => true | _ => false end.

Section Driver.

Variable P : Platform.

(** [#define CDC_BULK_EP_SIZE (USB_FS_BULK_EP_MAXSIZE)] *)
Definition CDC_BULK_EP_SIZE : Z := USB_FS_BULK_EP_MAXSIZE P.

(** [#define CDC_USB_RX_BUF_SIZ CDC_BULK_EP_SIZE] *)
Definition CDC_USB_RX_BUF_SIZ : Z := CDC_BULK_EP_SIZE.

Definition channel_no (c : Channel) : Z :=
  match c with
  | CH_UART_TX => CDC_UART_TX_DMA_CHANNEL P
  | CH_UART_RX => CDC_UART_RX_DMA_CHANNEL P
  end.

(** ** The collaborators *)

(** Submit a receive; on the bulk OUT endpoint it stays armed until a
    packet completes it. *)
Definition USBD_Read (ep : Endpoint) (buf : Buffer) (len : Z) : M unit :=
  log (E_USBD_Read ep buf len) ;;
  match ep with
  | CDC_EP_DATA_OUT => dev (fun h => set_usb_out (usb_out h ++ [buf]) h)
  | _ => ret tt
  end.

(** Submit a transmit; on the bulk IN endpoint it stays in flight until
    the host has taken it. *)
Definition USBD_Write (ep : Endpoint) (buf : Buffer) (len : Z) : M unit :=
  log (E_USBD_Write ep buf len) ;;
  match ep with
  | CDC_EP_DATA_IN => dev (fun h => set_usb_in (usb_in h ++ [(buf, len)]) h)
  | _ => ret tt
  end.

(** Start the channel from its descriptor as it stands in memory.  The
    receive descriptor always asks for [CDC_USB_TX_BUF_SIZ] bytes. *)
Definition LDMA_StartTransfer (c : Channel) : M unit :=
  match c with
  | CH_UART_TX =>
      src <- rd descriptorTx_srcAddr ;;
      cnt <- rd descriptorTx_xferCnt ;;
      log (E_LDMA_StartTransfer_Tx src cnt) ;;
      dev (fun h => set_dma_tx (dma_tx h ++ [(src, cnt)]) h)
  | CH_UART_RX =>
      dst <- rd descriptorRx_dstAddr ;;
      log (E_LDMA_StartTransfer_Rx dst) ;;
      dev (fun h => set_rx_remaining CDC_USB_TX_BUF_SIZ
                      (set_dma_rx (dma_rx h ++ [dst]) h))
  end.

(** Stop the channel with the given number; the remaining count stays
    readable. *)
Definition LDMA_StopTransfer (ch : Z) : M unit :=
  log (E_LDMA_StopTransfer ch) ;;
  dev (fun h =>
         let h1 := if ch =? channel_no CH_UART_RX then set_dma_rx [] h else h in
         if ch =? channel_no CH_UART_TX then set_dma_tx [] h1 else h1).

Definition LDMA_TransferRemainingCount_Rx : M Z := peek rx_remaining.

Definition USBTIMER_Start (timeout : Z) : M unit :=
  log (E_USBTIMER_Start timeout) ;;
  dev (set_timer (Some timeout)).

Definition USBTIMER_Stop : M unit :=
  log E_USBTIMER_Stop ;;
  dev (set_timer None).

(** [CDC_UART->FRAME = frame] *)
Definition write_FRAME (frame : Z) : M unit :=
  log (E_UART_FRAME frame) ;;
  dev (set_uart_FRAME frame).

Definition USART_BaudrateAsyncSet (baudrate : Z) : M unit :=
  log (E_USART_BaudrateAsyncSet baudrate) ;;
  dev (set_uart_baudrate baudrate).

(** ** The driver *)

(** [#define CDC_RX_TIMEOUT SL_MAX(10U, 50000 / (cdcLineCoding.dwDTERate))]
    in [uint32_t] arithmetic; dividing by zero is the fault. *)
Definition CDC_RX_TIMEOUT : M Z :=
  lc <- rd cdcLineCoding ;;
  if dwDTERate lc =? 0 then (fun _ => DivisionByZero)
  else ret (SL_MAX 10 (50000 / dwDTERate lc)).

Definition UsbDataReceived (status : USB_Status_TypeDef)
    (xferred remaining : Z) : M USB_Status_TypeDef :=
  (if is_OK status && (xferred >? 0) then
     i <- rd usbRxIndex ;;
     wr (set_usbRxIndex (Z.lxor i 1)) ;;
     active <- rd dmaTxActive ;;
     if negb active then
       wr (set_dmaTxActive true) ;;
       wr (set_descriptorTx_xferCnt (xferCnt_field (u32 (xferred - 1)))) ;;
       i <- rd usbRxIndex ;;
       wr (set_descriptorTx_srcAddr (usbRxBuffer (Z.lxor i 1))) ;;
       LDMA_StartTransfer CH_UART_TX ;;
       i <- rd usbRxIndex ;;
       USBD_Read CDC_EP_DATA_OUT (usbRxBuffer i) CDC_USB_RX_BUF_SIZ
     else
       wr (set_usbRxActive false) ;;
       wr (set_usbBytesReceived (s32 xferred))
   else ret tt) ;;
  ret USB_STATUS_OK.

Definition DmaTxComplete : M unit :=
  active <- rd usbRxActive ;;
  if negb active then
    n <- rd usbBytesReceived ;;
    wr (set_descriptorTx_xferCnt (xferCnt_field (s32 (n - 1)))) ;;
    i <- rd usbRxIndex ;;
    wr (set_descriptorTx_srcAddr (usbRxBuffer (Z.lxor i 1))) ;;
    LDMA_StartTransfer CH_UART_TX ;;
    wr (set_usbRxActive true) ;;
    i <- rd usbRxIndex ;;
    USBD_Read CDC_EP_DATA_OUT (usbRxBuffer i) CDC_USB_RX_BUF_SIZ
  else
    wr (set_dmaTxActive false).

Definition UsbDataTransmitted (status : USB_Status_TypeDef)
    (xferred remaining : Z) : M USB_Status_TypeDef :=
  (if is_OK status then
     active <- rd dmaRxActive ;;
     if negb active then
       i <- rd uartRxIndex ;;
       n <- rd uartRxCount ;;
       USBD_Write CDC_EP_DATA_IN (uartRxBuffer (Z.lxor i 1)) n ;;
       n <- rd uartRxCount ;;
       wr (set_LastUsbTxCnt n) ;;
       wr (set_dmaRxActive true) ;;
       wr (set_dmaRxCompleted true) ;;
       LDMA_StartTransfer CH_UART_RX ;;
       wr (set_uartRxCount 0) ;;
       t <- CDC_RX_TIMEOUT ;;
       USBTIMER_Start t
     else
       wr (set_usbTxActive false)
   else ret tt) ;;
  ret USB_STATUS_OK.

Definition DmaRxComplete : M unit :=
  i <- rd uartRxIndex ;;
  wr (set_uartRxIndex (Z.lxor i 1)) ;;
  completed <- rd dmaRxCompleted ;;
  (if completed then
     wr (set_uartRxCount CDC_USB_TX_BUF_SIZ)
   else
     numRemaining <- LDMA_TransferRemainingCount_Rx ;;
     wr (set_uartRxCount (s32 (u32 (CDC_USB_TX_BUF_SIZ - numRemaining))))) ;;
  active <- rd usbTxActive ;;
  if negb active then
    wr (set_usbTxActive true) ;;
    i <- rd uartRxIndex ;;
    n <- rd uartRxCount ;;
    USBD_Write CDC_EP_DATA_IN (uartRxBuffer (Z.lxor i 1)) n ;;
    n <- rd uartRxCount ;;
    wr (set_LastUsbTxCnt n) ;;
    wr (set_dmaRxCompleted true) ;;
    i <- rd uartRxIndex ;;
    wr (set_descriptorRx_dstAddr (uartRxBuffer i)) ;;
    LDMA_StartTransfer CH_UART_RX ;;
    wr (set_uartRxCount 0) ;;
    t <- CDC_RX_TIMEOUT ;;
    USBTIMER_Start t
  else
    wr (set_dmaRxActive false) ;;
    USBTIMER_Stop.

Definition UartRxTimeout : M unit :=
  numRemaining <- LDMA_TransferRemainingCount_Rx ;;
  let numReceived := u32 (CDC_USB_TX_BUF_SIZ - numRemaining) in
  last <- rd LastUsbTxCnt ;;
  if (numReceived =? 0) && (last =? CDC_BULK_EP_SIZE) then
    LDMA_StopTransfer (channel_no CH_UART_RX) ;;
    wr (set_dmaRxCompleted false) ;;
    DmaRxComplete
  else
    n <- rd uartRxCount ;;
    if (numReceived >? 0) && (numReceived =? u32 n) then
      LDMA_StopTransfer (channel_no CH_UART_RX) ;;
      wr (set_dmaRxCompleted false) ;;
      DmaRxComplete
    else
      wr (set_uartRxCount (s32 numReceived)) ;;
      t <- CDC_RX_TIMEOUT ;;
      USBTIMER_Start t.

Definition frame_databits (bits : Z) : option Z :=
  if bits =? 5 then Some (USART_FRAME_DATABITS_FIVE P)
  else if bits =? 6 then Some (USART_FRAME_DATABITS_SIX P)
  else if bits =? 7 then Some (USART_FRAME_DATABITS_SEVEN P)
  else if bits =? 8 then Some (USART_FRAME_DATABITS_EIGHT P)
  else if bits =? 16 then Some (USART_FRAME_DATABITS_SIXTEEN P)
  else None.

Definition frame_parity (parity : Z) : option Z :=
  if parity =? 0 then Some (USART_FRAME_PARITY_NONE P)
  else if parity =? 1 then Some (USART_FRAME_PARITY_ODD P)
  else if parity =? 2 then Some (USART_FRAME_PARITY_EVEN P)
  else if parity =? 3 then None
  else if parity =? 4 then None
  else None.

Definition frame_stopbits (fmt : Z) : option Z :=
  if fmt =? 0 then Some (USART_FRAME_STOPBITS_ONE P)
  else if fmt =? 1 then Some (USART_FRAME_STOPBITS_ONEANDAHALF P)
  else if fmt =? 2 then Some (USART_FRAME_STOPBITS_TWO P)
  else None.

(** The three checks run in the order data bits, parity, stop bits; each
    ORs its field into [frame] or returns [USB_STATUS_REQ_ERR]. *)
Definition LineCodingReceived (status : USB_Status_TypeDef)
    (xferred remaining : Z) : M USB_Status_TypeDef :=
  let frame := 0 in
  if is_OK status && (xferred =? 7) then
    lc <- rd cdcLineCoding ;;
    match frame_databits (bDataBits lc) with
    | None => ret USB_STATUS_REQ_ERR
    | Some d =>
        let frame := Z.lor frame d in
        match frame_parity (bParityType lc) with
        | None => ret USB_STATUS_REQ_ERR
        | Some p =>
            let frame := Z.lor frame p in
            match frame_stopbits (bCharFormat lc) with
            | None => ret USB_STATUS_REQ_ERR
            | Some b =>
                let frame := Z.lor frame b in
                write_FRAME frame ;;
                USART_BaudrateAsyncSet (dwDTERate lc) ;;
                ret USB_STATUS_OK
            end
        end
    end
  else ret USB_STATUS_REQ_ERR.

Definition CDC_SetupCmd (setup : USB_Setup_TypeDef) : M USB_Status_TypeDef :=
  if is_CLASS (Type_ setup) && is_INTERFACE (Recipient setup) then
    match bRequest setup with
    | USB_CDC_GETLINECODING =>
        if (wValue setup =? 0) && (wIndex setup =? CDC_CTRL_INTERFACE_NO P)
           && (wLength setup =? 7) && is_DIR_IN (Direction setup)
        then USBD_Write EP0 lineCodingBuffer 7 ;; ret USB_STATUS_OK
        else ret USB_STATUS_REQ_UNHANDLED
    | USB_CDC_SETLINECODING =>
        if (wValue setup =? 0) && (wIndex setup =? CDC_CTRL_INTERFACE_NO P)
           && (wLength setup =? 7) && negb (is_DIR_IN (Direction setup))
        then USBD_Read EP0 lineCodingBuffer 7 ;; ret USB_STATUS_OK
        else ret USB_STATUS_REQ_UNHANDLED
    | USB_CDC_SETCTRLLINESTATE =>
        if (wIndex setup =? CDC_CTRL_INTERFACE_NO P) && (wLength setup =? 0)
        then ret USB_STATUS_OK
        else ret USB_STATUS_REQ_UNHANDLED
    | USB_REQUEST_OTHER _ => ret USB_STATUS_REQ_UNHANDLED
    end
  else ret USB_STATUS_REQ_UNHANDLED.

Definition CDC_StateChangeEvent (oldState newState : USBD_State_TypeDef)
    : M unit :=
  if is_CONFIGURED newState then
    wr (set_usbRxIndex 0) ;;
    wr (set_usbRxActive true) ;;
    wr (set_dmaTxActive false) ;;
    i <- rd usbRxIndex ;;
    USBD_Read CDC_EP_DATA_OUT (usbRxBuffer i) CDC_USB_RX_BUF_SIZ ;;
    wr (set_uartRxIndex 0) ;;
    wr (set_LastUsbTxCnt 0) ;;
    wr (set_uartRxCount 0) ;;
    wr (set_dmaRxActive true) ;;
    wr (set_usbTxActive false) ;;
    wr (set_dmaRxCompleted true) ;;
    LDMA_StartTransfer CH_UART_RX ;;
    t <- CDC_RX_TIMEOUT ;;
    USBTIMER_Start t
  else if is_CONFIGURED oldState && negb (is_SUSPENDED newState) then
    USBTIMER_Stop ;;
    LDMA_StopTransfer (Z.lor (channel_no CH_UART_RX) (channel_no CH_UART_TX))
  else if is_SUSPENDED newState then
    USBTIMER_Stop ;;
    LDMA_StopTransfer (Z.lor (channel_no CH_UART_RX) (channel_no CH_UART_TX))
  else ret tt.

(** [DmaSetup]: both descriptors are built once, from the indices as they
    are at start-up. *)
Definition DmaSetup : M unit :=
  i <- rd usbRxIndex ;;
  n <- rd usbBytesReceived ;;
  wr (set_descriptorTx_srcAddr (usbRxBuffer i)) ;;
  wr (set_descriptorTx_xferCnt (xferCnt_field (n - 1))) ;;
  i <- rd uartRxIndex ;;
  wr (set_descriptorRx_dstAddr (uartRxBuffer i)).

End Driver.

(** ** Start-up and the environment *)

(** The statics as the C start-up code leaves them.  The descriptor
    addresses are placeholders until [DmaSetup] runs; the UART registers
    are whatever [SerialPortInit] programmed. *)
Definition power_on (frame baudrate : Z) : State :=
  {| g := {| cdcLineCoding := {| dwDTERate := 115200; bCharFormat := 0;
                                 bParityType := 0; bDataBits := 8; dummy := 0 |};
             usbRxIndex := 0; usbBytesReceived := 0;
             uartRxIndex := 0; uartRxCount := 0; LastUsbTxCnt := 0;
             dmaRxCompleted := false;
             usbRxActive := false; dmaTxActive := false;
             usbTxActive := false; dmaRxActive := false;
             descriptorTx_xferCnt := 0;
             descriptorTx_srcAddr := lineCodingBuffer;
             descriptorRx_dstAddr := lineCodingBuffer |};
     hw := {| uart_FRAME := frame; uart_baudrate := baudrate; timer := None;
              usb_out := []; usb_in := []; dma_tx := []; dma_rx := [];
              rx_remaining := 0 |};
     trace := [] |}.

(** What the hardware and the USB stack can do to the driver.  Each event
    is enabled only when the transfer (or timer) it completes is
    outstanding. *)
Inductive Event : Type :=
| EvUsbOut (status : USB_Status_TypeDef) (xferred : Z)
| EvDmaTxDone
| EvUartByte
| EvUsbIn (status : USB_Status_TypeDef)
| EvTimer.

Section Environment.

Variable P : Platform.

(** [CDC_Init] followed by the state change to CONFIGURED. *)
Definition bring_up : M unit :=
  DmaSetup ;;
  CDC_StateChangeEvent P USBD_STATE_ADDRESSED USBD_STATE_CONFIGURED.

(** One event: the collaborator retires the transfer, then the handler
    runs to completion.  [None] when the event is not enabled or the
    handler faults. *)
Definition step (e : Event) (s : State) : option State :=
  match e with
  | EvUsbOut status xferred =>
      match usb_out (hw s) with
      | [] => None
      | _ :: rest =>
          exec (dev (set_usb_out rest) ;;
                UsbDataReceived P status xferred 0) s
      end
  | EvDmaTxDone =>
      match dma_tx (hw s) with
      | [] => None
      | _ :: rest => exec (dev (set_dma_tx rest) ;; DmaTxComplete P) s
      end
  | EvUartByte =>
      match dma_rx (hw s) with
      | [] => None
      | _ :: rest =>
          let r := rx_remaining (hw s) in
          if r <=? 0 then None
          else if r =? 1 then
            exec (dev (fun h => set_rx_remaining 0 (set_dma_rx rest h)) ;;
                  DmaRxComplete) s
          else exec (dev (set_rx_remaining (r - 1))) s
      end
  | EvUsbIn status =>
      match usb_in (hw s) with
      | [] => None
      | (_, len) :: rest =>
          exec (dev (set_usb_in rest) ;;
                UsbDataTransmitted status len 0) s
      end
  | EvTimer =>
      match timer (hw s) with
      | None => None
      | Some _ => exec (dev (set_timer None) ;; UartRxTimeout P) s
      end
  end.

(** Run a whole sequence of events. *)
Fixpoint run (es : list Event) (s : State) : option State :=
  match es with
  | [] => Some s
  | e :: es' =>
      match step e s with
      | Some s' => run es' s'
      | None => None
      end
  end.

End Environment.

(** The values of the EFM32GG11 headers and of the example's
    [usbconfig.h], used for concrete runs. *)
Definition gg11 : Platform :=
  {| USB_FS_BULK_EP_MAXSIZE := 64;
     CDC_UART_TX_DMA_CHANNEL := 0;
     CDC_UART_RX_DMA_CHANNEL := 1;
     CDC_CTRL_INTERFACE_NO := 0;
     USART_FRAME_DATABITS_FIVE := 2;
     USART_FRAME_DATABITS_SIX := 3;
     USART_FRAME_DATABITS_SEVEN := 4;
     USART_FRAME_DATABITS_EIGHT := 5;
     USART_FRAME_DATABITS_SIXTEEN := 13;
     USART_FRAME_PARITY_NONE := 0;
     USART_FRAME_PARITY_ODD := 768;
     USART_FRAME_PARITY_EVEN := 512;
     USART_FRAME_STOPBITS_ONE := 4096;
     USART_FRAME_STOPBITS_ONEANDAHALF := 8192;
     USART_FRAME_STOPBITS_TWO := 12288 |}.

(** The configured state on that platform, UART at its 115200 8N1 default. *)
Definition configured_gg11 : State :=
  match exec (bring_up gg11) (power_on 4101 115200) with
  | Some s => s
  | None => power_on 4101 115200
  end.

(** The state that platform is in after the given events, counted from the
    configured state; an event that cannot occur ends the run there. *)
Definition after (es : list Event) : State :=
  match run gg11 es configured_gg11 with
  | Some s => s
  | None => configured_gg11
  end.

(** [n] bytes arriving on the UART. *)
Definition uart_bytes (n : nat) : list Event := repeat EvUartByte n.

(** ** The SET_LINE_CODING control transfer *)

Section LineCoding.

Variable P : Platform.

(** The setup packet of a well-formed SET_LINE_CODING request. *)
Definition set_line_coding_setup : USB_Setup_TypeDef :=
  {| Recipient := USB_SETUP_RECIPIENT_INTERFACE;
     Type_ := USB_SETUP_TYPE_CLASS;
     Direction := USB_SETUP_DIR_OUT;
     bRequest := USB_CDC_SETLINECODING;
     wValue := 0;
     wIndex := CDC_CTRL_INTERFACE_NO P;
     wLength := 7 |}.

(** Completion of the control read that [CDC_SetupCmd] armed with
    [&cdcLineCoding] as its buffer: the stack has already stored the
    received bytes there when it calls [LineCodingReceived]. *)
Definition ep0_data_stage (payload : list Z) : M USB_Status_TypeDef :=
  lc <- rd cdcLineCoding ;;
  wr (set_cdcLineCoding (overwrite_lineCoding payload lc)) ;;
  LineCodingReceived P USB_STATUS_OK
    (Z.of_nat (Nat.min (length payload) 7)) 0.

(** Setup stage, then data stage when the setup stage was accepted. *)
Definition SET_LINE_CODING (payload : list Z) : M USB_Status_TypeDef :=
  r <- CDC_SetupCmd P set_line_coding_setup ;;
  if is_OK r then ep0_data_stage payload else ret r.

End LineCoding.

(** A configuration the bridge supports, in the words of the line-coding
    structure: 5, 6, 7, 8 or 16 data bits; no, odd or even parity; 1, 1.5
    or 2 stop bits. *)
Definition supported (lc : cdcLineCoding_TypeDef) : bool :=
  ((bDataBits lc =? 5) || (bDataBits lc =? 6) || (bDataBits lc =? 7)
   || (bDataBits lc =? 8) || (bDataBits lc =? 16))
  && ((bParityType lc =? 0) || (bParityType lc =? 1) || (bParityType lc =? 2))
  && ((bCharFormat lc =? 0) || (bCharFormat lc =? 1) || (bCharFormat lc =? 2)).

(** Status returned by a handler run; a fault has none. *)
Definition status_of (r : Res USB_Status_TypeDef) : option USB_Status_TypeDef :=
  match r with Ok a _ => Some a | DivisionByZero => None end.

(** State left by a handler run. *)
Definition state_of {A : Type} (r : Res A) : option State :=
  match r with Ok _ s => Some s | DivisionByZero => None end.

(** ** Observations on a state and on the log *)

(** Lengths of the bulk IN transmissions submitted, oldest first. *)
Fixpoint usb_writes (tr : list Effect) : list Z :=
  match tr with
  | [] => []
  | E_USBD_Write CDC_EP_DATA_IN _ len :: tr' => len :: usb_writes tr'
  | _ :: tr' => usb_writes tr'
  end.

(** Intervals of the timer arms, oldest first. *)
Fixpoint timer_arms (tr : list Effect) : list Z :=
  match tr with
  | [] => []
  | E_USBTIMER_Start t :: tr' => t :: timer_arms tr'
  | _ :: tr' => timer_arms tr'
  end.

(** At most one UART-transmit DMA and at most one bulk IN transmission
    outstanding. *)
Definition one_drain_per_direction (s : State) : Prop :=
  (length (dma_tx (hw s)) <= 1)%nat /\ (length (usb_in (hw s)) <= 1)%nat.

(** Source buffers of the drains in flight, both directions. *)
Definition drain_sources (s : State) : list Buffer :=
  map fst (dma_tx (hw s)) ++ map fst (usb_in (hw s)).

(** The slot each cursor designates as fill target. *)
Definition cursor_fill_targets (s : State) : list Buffer :=
  [usbRxBuffer (usbRxIndex (g s)); uartRxBuffer (uartRxIndex (g s))].

(** No slot designated by a cursor is the source of a drain in flight. *)
Definition cursor_exclusive (s : State) : Prop :=
  forall b, In b (cursor_fill_targets s) -> ~ In b (drain_sources s).

(** No slot with a USB receive armed into it is the source of a
    UART-transmit DMA in flight. *)
Definition usb_fill_exclusive (s : State) : Prop :=
  forall b, In b (usb_out (hw s)) -> ~ In b (map fst (dma_tx (hw s))).

(** No slot the UART-receive DMA is writing is the source of a bulk IN
    transmission in flight. *)
Definition uart_fill_exclusive (s : State) : Prop :=
  forall b, In b (dma_rx (hw s)) -> ~ In b (map fst (usb_in (hw s))).

(** States the environment can drive the driver into. *)
Definition reachable (P : Platform) (s0 s : State) : Prop :=
  exists es, run P es s0 = Some s.

(** The state right after bring-up, for any platform and UART setting. *)
Definition configured (P : Platform) (frame baudrate : Z) : option State :=
  exec (bring_up P) (power_on frame baudrate).

(** The hand-off invariant of the USB-to-UART direction together with the
    flag discipline of the other one. *)
Definition handoff_inv (s : State) : Prop :=
  (usb_out (hw s) = [] \/ usb_out (hw s) = [usbRxBuffer (usbRxIndex (g s))])
  /\ (dma_tx (hw s) = []
      \/ (exists n, dma_tx (hw s) = [(usbRxBuffer (Z.lxor (usbRxIndex (g s)) 1), n)])
      \/ (usb_out (hw s) = []
          /\ exists n, dma_tx (hw s) = [(usbRxBuffer (usbRxIndex (g s)), n)]))
  /\ (dmaTxActive (g s) = false -> dma_tx (hw s) = [])
  /\ (usbRxActive (g s) = false -> usb_out (hw s) = [])
  /\ (length (usb_in (hw s)) <= 1)%nat
  /\ (usbTxActive (g s) = false -> usb_in (hw s) = []).

(** The timer runs only while the UART-receive DMA does. *)
Definition timer_inv (s : State) : Prop :=
  timer (hw s) <> None ->
  dmaRxActive (g s) = true /\ exists b, dma_rx (hw s) = [b].

(** Leaving the configured state for [newState]. *)
Definition deactivate (P : Platform) (newState : USBD_State_TypeDef) : M unit :=
  CDC_StateChangeEvent P USBD_STATE_CONFIGURED newState.

(** The five transfer-in-flight and completion flags. *)
Definition flags (s : State) : list bool :=
  [usbRxActive (g s); dmaTxActive (g s); usbTxActive (g s);
   dmaRxActive (g s); dmaRxCompleted (g s)].

(** Events of the UART-to-USB direction. *)
Definition is_uart_to_usb (e : Event) : bool :=
  match e with
  | EvUartByte | EvUsbIn _ | EvTimer => true
  | EvUsbOut _ _ | EvDmaTxDone => false
  end.

(** Everything the USB-to-UART hand-off reads or writes. *)
Definition usb_to_uart_view (s : State)
    : Z * Z * bool * bool * list Buffer * list (Buffer * Z) :=
  (usbRxIndex (g s), usbBytesReceived (g s), usbRxActive (g s),
   dmaTxActive (g s), usb_out (hw s), dma_tx (hw s)).

(** The two channels are different channels. *)
Definition distinct_channels (P : Platform) : Prop :=
  CDC_UART_RX_DMA_CHANNEL P <> CDC_UART_TX_DMA_CHANNEL P.

(** Events that can occur while the UART line stays idle: timer ticks and
    completions of bulk IN transmissions, but no received byte. *)
Definition is_idle_event (e : Event) : bool :=
  match e with
  | EvTimer | EvUsbIn _ => true
  | EvUsbOut _ _ | EvDmaTxDone | EvUartByte => false
  end.

(** Nothing received in the running UART-receive transfer, the last
    transmission was not a full packet, the receive pipeline is not
    paused. *)
Definition idle_quiet (P : Platform) (s : State) : Prop :=
  rx_remaining (hw s) = CDC_USB_TX_BUF_SIZ
  /\ LastUsbTxCnt (g s) <> CDC_BULK_EP_SIZE P
  /\ dmaRxActive (g s) = true.


(** ** Further observations, for the properties beyond the claims *)

(** The discipline of the UART-to-USB direction: while the receive
    pipeline is active its DMA runs, it has not been stopped early and the
    timer is armed; while it is paused no DMA runs, the timer is off and a
    USB transmission is accounted for; counts stay within a buffer. *)
Definition uart_inv (s : State) : Prop :=
  (dmaRxActive (g s) = true ->
   (exists d, dma_rx (hw s) = [d])
   /\ timer (hw s) <> None
   /\ dmaRxCompleted (g s) = true
   /\ 1 <= rx_remaining (hw s))
  /\ (dmaRxActive (g s) = false ->
      dma_rx (hw s) = [] /\ timer (hw s) = None /\ usbTxActive (g s) = true)
  /\ 0 <= rx_remaining (hw s) <= CDC_USB_TX_BUF_SIZ
  /\ 0 <= uartRxCount (g s) <= CDC_USB_TX_BUF_SIZ.

(** A length that fits a UART receive buffer. *)
Definition fits_buffer (n : Z) : Prop := 0 <= n <= CDC_USB_TX_BUF_SIZ.

(** Whether the environment can deliver the event in this state. *)
Definition enabled (e : Event) (s : State) : bool :=
  match e with
  | EvUsbOut _ _ => match usb_out (hw s) with [] => false | _ => true end
  | EvDmaTxDone => match dma_tx (hw s) with [] => false | _ => true end
  | EvUartByte =>
      match dma_rx (hw s) with
      | [] => false
      | _ => 0 <? rx_remaining (hw s)
      end
  | EvUsbIn _ => match usb_in (hw s) with [] => false | _ => true end
  | EvTimer => match timer (hw s) with None => false | Some _ => true end
  end.

(** Bulk OUT receives armed, oldest first. *)
Fixpoint usb_reads (tr : list Effect) : list Buffer :=
  match tr with
  | [] => []
  | E_USBD_Read CDC_EP_DATA_OUT buf _ :: tr' => buf :: usb_reads tr'
  | _ :: tr' => usb_reads tr'
  end.

(** Source slots of the UART-transmit DMA transfers started, oldest
    first. *)
Fixpoint tx_sources (tr : list Effect) : list Buffer :=
  match tr with
  | [] => []
  | E_LDMA_StartTransfer_Tx src _ :: tr' => src :: tx_sources tr'
  | _ :: tr' => tx_sources tr'
  end.

(** Source slots of the bulk IN transmissions submitted, oldest first. *)
Fixpoint usb_write_sources (tr : list Effect) : list Buffer :=
  match tr with
  | [] => []
  | E_USBD_Write CDC_EP_DATA_IN buf _ :: tr' => buf :: usb_write_sources tr'
  | _ :: tr' => usb_write_sources tr'
  end.

(** No two neighbours of the list are equal. *)
Fixpoint alternating (l : list Buffer) : Prop :=
  match l with
  | a :: ((b :: _) as l') => a <> b /\ alternating l'
  | _ => True
  end.

(** The bytes a GET_LINE_CODING reply carries: the first 7 bytes of the
    line-coding variable. *)
Definition get_line_coding_reply (s : State) : list Z :=
  firstn 7 (lineCoding_bytes (cdcLineCoding (g s))).

(** The setup packet of a well-formed GET_LINE_CODING request. *)
Definition get_line_coding_setup (P : Platform) : USB_Setup_TypeDef :=
  {| Recipient := USB_SETUP_RECIPIENT_INTERFACE;
     Type_ := USB_SETUP_TYPE_CLASS;
     Direction := USB_SETUP_DIR_IN;
     bRequest := USB_CDC_GETLINECODING;
     wValue := 0;
     wIndex := CDC_CTRL_INTERFACE_NO P;
     wLength := 7 |}.

(** All bytes of the list are in 0..255. *)
Definition all_bytes (l : list Z) : Prop := Forall (fun b => 0 <= b < 256) l.

(** Events of the USB-to-UART direction. *)
Definition is_usb_to_uart (e : Event) : bool :=
  match e with
  | EvUsbOut _ _ | EvDmaTxDone => true
  | EvUartByte | EvUsbIn _ | EvTimer => false
  end.

(** Everything the UART-to-USB hand-off reads or writes. *)
Definition uart_to_usb_view (s : State)
    : Z * Z * Z * bool * bool * bool * Buffer
      * option Z * list (Buffer * Z) * list Buffer * Z :=
  (uartRxIndex (g s), uartRxCount (g s), LastUsbTxCnt (g s),
   dmaRxCompleted (g s), usbTxActive (g s), dmaRxActive (g s),
   descriptorRx_dstAddr (g s),
   timer (hw s), usb_in (hw s), dma_rx (hw s), rx_remaining (hw s)).

(** The last element of a list of slots, if any. *)
Definition last_slot (l : list Buffer) : option Buffer := hd_error (rev l).

(** The slot the next UART-transmit DMA must not repeat: the one drained
    last, as the cursor and the receive flag tell it. *)
Definition last_drained (s : State) : Buffer :=
  usbRxBuffer (if usbRxActive (g s)
               then Z.lxor (usbRxIndex (g s)) 1
               else usbRxIndex (g s)).

(** The same for the bulk IN transmissions. *)
Definition last_transmitted (s : State) : Buffer :=
  uartRxBuffer (if dmaRxActive (g s)
                then Z.lxor (uartRxIndex (g s)) 1
                else uartRxIndex (g s)).

(** The UART-transmit DMA transfers started so far took their slots in
    strict alternation, the last one from [last_drained]. *)
Definition drain_order_inv (s : State) : Prop :=
  alternating (tx_sources (trace s))
  /\ (forall b, last_slot (tx_sources (trace s)) = Some b -> b = last_drained s).

(** The bulk IN transmissions submitted so far took their slots in strict
    alternation, the last one from [last_transmitted]. *)
Definition transmit_order_inv (s : State) : Prop :=
  alternating (usb_write_sources (trace s))
  /\ (forall b, last_slot (usb_write_sources (trace s)) = Some b ->
                b = last_transmitted s).

(** Count fields of the UART-transmit DMA transfers started, oldest
    first. *)
Fixpoint tx_counts (tr : list Effect) : list Z :=
  match tr with
  | [] => []
  | E_LDMA_StartTransfer_Tx _ cnt :: tr' => cnt :: tx_counts tr'
  | _ :: tr' => tx_counts tr'
  end.

(** Sizes of the packets the events deliver with success, in order. *)
Fixpoint received_packets (es : list Event) : list Z :=
  match es with
  | [] => []
  | EvUsbOut status n :: es' =>
      if is_OK status && (n >? 0) then n :: received_packets es'
      else received_packets es'
  | _ :: es' => received_packets es'
  end.

(** A USB packet is no longer than the endpoint size. *)
Definition packet_fits (P : Platform) (e : Event) : Prop :=
  match e with
  | EvUsbOut _ n => n <= CDC_USB_RX_BUF_SIZ P
  | _ => True
  end.

(** The count field DmaTxComplete will program for the packet that is
    waiting, if one is. *)
Definition pending_count (s : State) : list Z :=
  if usbRxActive (g s) then []
  else [xferCnt_field (s32 (usbBytesReceived (g s) - 1))].

(** Total of a list of lengths. *)
Definition total (l : list Z) : Z := fold_right Z.add 0 l.

(** Number of UART bytes among the events; in a run each of them is taken
    in by the running UART-receive DMA. *)
Fixpoint uart_byte_count (es : list Event) : Z :=
  match es with
  | [] => 0
  | EvUartByte :: es' => 1 + uart_byte_count es'
  | _ :: es' => uart_byte_count es'
  end.

(** Bytes received but not yet handed to USB: those in the buffer the DMA
    is filling or, while the pipeline is paused, those recorded for the
    next transmission. *)
Definition buffered (s : State) : Z :=
  if dmaRxActive (g s)
  then CDC_USB_TX_BUF_SIZ - rx_remaining (hw s)
  else uartRxCount (g s).

(** Bytes each outstanding UART-transmit DMA transfer moves, oldest
    first. *)
Definition dma_tx_bytes (h : Hardware) : list Z :=
  map (fun x => xferCnt_bytes (snd x)) (dma_tx h).

(** Everything the USB-to-UART hand-off reads or writes, the two fields of
    the transmit descriptor included. *)
Definition usb_to_uart_full_view (s : State)
    : Z * Z * bool * bool * Buffer * Z * list Buffer * list (Buffer * Z) :=
  (usbRxIndex (g s), usbBytesReceived (g s), usbRxActive (g s),
   dmaTxActive (g s), descriptorTx_srcAddr (g s), descriptorTx_xferCnt (g s),
   usb_out (hw s), dma_tx (hw s)).

(** The EFM32GG11 bridge after one full UART buffer has been transmitted
    and the device has then left the configured state. *)
Definition deconfigured_gg11 : State :=
  match deactivate gg11 USBD_STATE_ADDRESSED
          (after (uart_bytes 127 ++ [EvUsbIn USB_STATUS_OK])) with
  | Ok _ s => s
  | DivisionByZero => configured_gg11
  end.

(** * Properties *)

(** ** Proof support *)

Ltac unfold_monad :=
  unfold bind, ret, rd, wr, dev, peek, log, exec, status_of, state_of.

Ltac unfold_collab :=
  unfold USBD_Read, USBD_Write, LDMA_StartTransfer, LDMA_StopTransfer,
    LDMA_TransferRemainingCount_Rx, USBTIMER_Start, USBTIMER_Stop,
    write_FRAME, USART_BaudrateAsyncSet, CDC_RX_TIMEOUT.

Ltac break_state s :=
  destruct s as
    [[lc_ usbRxIndex_ usbBytesReceived_ uartRxIndex_ uartRxCount_
        LastUsbTxCnt_ dmaRxCompleted_ usbRxActive_ dmaTxActive_ usbTxActive_
        dmaRxActive_ xferCnt_ srcAddr_ dstAddr_]
       [frame_ baud_ timer_ usb_out_ usb_in_ dma_tx_ dma_rx_ remaining_]
       trace_].

Ltac break_state' s :=
  destruct s as
    [[lc' usbRxIndex' usbBytesReceived' uartRxIndex' uartRxCount'
        LastUsbTxCnt' dmaRxCompleted' usbRxActive' dmaTxActive' usbTxActive'
        dmaRxActive' xferCnt' srcAddr' dstAddr']
       [frame' baud' timer' usb_out' usb_in' dma_tx' dma_rx' remaining']
       trace'].

(** Symbolic execution of a handler: unfold the driver, the collaborators,
    the monad and the record accessors, and nothing of the arithmetic. *)
Ltac sym_exec_in H :=
  lazy beta iota zeta delta
    [step exec bind ret rd wr dev peek log configured bring_up DmaSetup
     power_on
     UsbDataReceived DmaTxComplete UsbDataTransmitted DmaRxComplete
     UartRxTimeout CDC_RX_TIMEOUT CDC_StateChangeEvent deactivate
     USBD_Read USBD_Write LDMA_StartTransfer LDMA_StopTransfer
     LDMA_TransferRemainingCount_Rx USBTIMER_Start USBTIMER_Stop
     channel_no CDC_USB_RX_BUF_SIZ CDC_BULK_EP_SIZE
     g hw trace
     cdcLineCoding usbRxIndex usbBytesReceived uartRxIndex uartRxCount
     LastUsbTxCnt dmaRxCompleted usbRxActive dmaTxActive usbTxActive
     dmaRxActive descriptorTx_xferCnt descriptorTx_srcAddr
     descriptorRx_dstAddr
     uart_FRAME uart_baudrate timer usb_out usb_in dma_tx dma_rx rx_remaining
     set_cdcLineCoding set_usbRxIndex set_usbBytesReceived set_uartRxIndex
     set_uartRxCount set_LastUsbTxCnt set_dmaRxCompleted set_usbRxActive
     set_dmaTxActive set_usbTxActive set_dmaRxActive set_descriptorTx_xferCnt
     set_descriptorTx_srcAddr set_descriptorRx_dstAddr
     set_uart_FRAME set_uart_baudrate set_timer set_usb_out set_usb_in
     set_dma_tx set_dma_rx set_rx_remaining] in H.

Ltac sym_exec :=
  lazy beta iota zeta delta
    [step exec bind ret rd wr dev peek log configured bring_up DmaSetup
     power_on
     UsbDataReceived DmaTxComplete UsbDataTransmitted DmaRxComplete
     UartRxTimeout CDC_RX_TIMEOUT CDC_StateChangeEvent deactivate
     USBD_Read USBD_Write LDMA_StartTransfer LDMA_StopTransfer
     LDMA_TransferRemainingCount_Rx USBTIMER_Start USBTIMER_Stop
     channel_no CDC_USB_RX_BUF_SIZ CDC_BULK_EP_SIZE
     g hw trace
     cdcLineCoding usbRxIndex usbBytesReceived uartRxIndex uartRxCount
     LastUsbTxCnt dmaRxCompleted usbRxActive dmaTxActive usbTxActive
     dmaRxActive descriptorTx_xferCnt descriptorTx_srcAddr
     descriptorRx_dstAddr
     uart_FRAME uart_baudrate timer usb_out usb_in dma_tx dma_rx rx_remaining
     set_cdcLineCoding set_usbRxIndex set_usbBytesReceived set_uartRxIndex
     set_uartRxCount set_LastUsbTxCnt set_dmaRxCompleted set_usbRxActive
     set_dmaTxActive set_usbTxActive set_dmaRxActive set_descriptorTx_xferCnt
     set_descriptorTx_srcAddr set_descriptorRx_dstAddr
     set_uart_FRAME set_uart_baudrate set_timer set_usb_out set_usb_in
     set_dma_tx set_dma_rx set_rx_remaining].

(** Reduce the record accessors in the hypotheses, and nothing else. *)
Ltac fields :=
  cbn [g hw trace
       cdcLineCoding usbRxIndex usbBytesReceived uartRxIndex uartRxCount
       LastUsbTxCnt dmaRxCompleted usbRxActive dmaTxActive usbTxActive
       dmaRxActive descriptorTx_xferCnt descriptorTx_srcAddr
       descriptorRx_dstAddr
       uart_FRAME uart_baudrate timer usb_out usb_in dma_tx dma_rx
       rx_remaining] in *.

(** Case analysis on every test the run in hypothesis [H] makes; a run that
    faults or is not enabled closes its case. *)
Ltac split_exec H :=
  repeat (sym_exec_in H;
          match type of H with
          | None = Some _ => discriminate H
          | context [if ?c then _ else _] =>
              let E := fresh "E" in destruct c eqn:E
          | context [match ?c with _ => _ end] =>
              let E := fresh "E" in destruct c eqn:E
          end);
  sym_exec_in H.

Lemma setup_accepts_set_line_coding (P : Platform) (s : State) :
  CDC_SetupCmd P (set_line_coding_setup P) s =
  Ok USB_STATUS_OK
     {| g := g s; hw := hw s;
        trace := trace s ++ [E_USBD_Read EP0 lineCodingBuffer 7] |}.
Proof.
  unfold CDC_SetupCmd, set_line_coding_setup; cbn.
  rewrite Z.eqb_refl; cbn.
  unfold_collab; unfold_monad; cbn. reflexivity.
Qed.

Lemma length7 {A : Type} (l : list A) :
  length l = 7%nat -> exists a b c d e f h, l = [a; b; c; d; e; f; h].
Proof.
  intro H.
  do 7 (destruct l as [| ? l]; [discriminate H |]).
  destruct l; [| discriminate H].
  repeat eexists.
Qed.

Section LineCodingProperties.

Variable P : Platform.

(** C1 (amended): an unsupported SET_LINE_CODING payload is answered with
    USB_STATUS_REQ_ERR and the UART frame and baudrate registers, every
    flag, index and count stay as they were; only the line-coding variable
    changes, to the bytes the host sent, because it is itself the receive
    buffer of the control transfer. The supported configuration
    9600 baud, 8 data bits, no parity, 1 stop bit is accepted and
    programmed. *)
Theorem C1_unsupported_rejected_uart_untouched (s : State) (payload : list Z)
    (Hlen : length payload = 7%nat)
    (Hbad : supported (overwrite_lineCoding payload (cdcLineCoding (g s))) = false) :
  SET_LINE_CODING P payload s =
    Ok USB_STATUS_REQ_ERR
       {| g := set_cdcLineCoding
                 (overwrite_lineCoding payload (cdcLineCoding (g s))) (g s);
          hw := hw s;
          trace := trace s ++ [E_USBD_Read EP0 lineCodingBuffer 7] |}
  /\ (exists s',
        SET_LINE_CODING P (lineCoding_payload 9600 0 0 8) s = Ok USB_STATUS_OK s'
        /\ dwDTERate (cdcLineCoding (g s')) = 9600
        /\ uart_baudrate (hw s') = 9600
        /\ uart_FRAME (hw s')
           = Z.lor (Z.lor (Z.lor 0 (USART_FRAME_DATABITS_EIGHT P))
                          (USART_FRAME_PARITY_NONE P))
                   (USART_FRAME_STOPBITS_ONE P)).
Proof.
  split.
  - destruct (length7 payload Hlen) as (a & b & c & d & e & f & h & ->).
    unfold SET_LINE_CODING, bind at 1.
    rewrite setup_accepts_set_line_coding. cbn [is_OK].
    unfold ep0_data_stage, LineCodingReceived.
    unfold supported, overwrite_lineCoding in Hbad.
    cbn in Hbad.
    unfold_monad. cbn.
    unfold frame_databits, frame_parity, frame_stopbits.
    repeat match goal with
           | |- context [?x =? ?y] =>
               let E := fresh "E" in
               destruct (x =? y) eqn:E; cbn in Hbad |- *;
               try discriminate Hbad; try reflexivity
           end.
  - unfold SET_LINE_CODING, bind at 1.
    rewrite setup_accepts_set_line_coding. cbn [is_OK].
    break_state s. destruct lc_.
    eexists. split; [ vm_compute; reflexivity | ].
    cbn. repeat split; reflexivity.
Qed.

End LineCodingProperties.

(** ** Arithmetic of the conversions *)

Lemma u32_small (x : Z) : 0 <= x < 2 ^ 32 -> u32 x = x.
Proof. intro H. unfold u32. apply Z.mod_small. exact H. Qed.

Lemma s32_small (x : Z) : - 2 ^ 31 <= x < 2 ^ 31 -> s32 x = x.
Proof.
  intro H. unfold s32.
  rewrite Z.mod_small; [ lia | ].
  change (2 ^ 32) with (2 ^ 31 + 2 ^ 31). lia.
Qed.

Lemma xferCnt_field_small (x : Z) : 0 <= x < 2 ^ 11 -> xferCnt_field x = x.
Proof. intro H. unfold xferCnt_field. apply Z.mod_small. exact H. Qed.

Lemma lxor_1_1 (i : Z) : Z.lxor (Z.lxor i 1) 1 = i.
Proof. rewrite Z.lxor_assoc. change (Z.lxor 1 1) with 0. apply Z.lxor_0_r. Qed.

Lemma lxor_1_neq (i : Z) : Z.lxor i 1 <> i.
Proof.
  intro H.
  assert (E : Z.lxor i (Z.lxor i 1) = Z.lxor i i) by (rewrite H; reflexivity).
  rewrite <- Z.lxor_assoc, Z.lxor_nilpotent in E.
  discriminate E.
Qed.

Lemma gtb_pos (x : Z) : 0 < x -> (x >? 0) = true.
Proof. intro H. apply Z.gtb_lt. exact H. Qed.

Section UsbToUart.

Variable P : Platform.

(** Both paths of the USB-to-UART hand-off: the transfer is started by
    UsbDataReceived itself when no UART transmit is active, and otherwise
    by the next DmaTxComplete, from the count UsbDataReceived recorded.
    Either way the descriptor's count field is N - 1 and the source is the
    slot the packet was received into. *)
Lemma uart_transmit_started (s : State) (N : Z)
    (Hmax : CDC_USB_RX_BUF_SIZ P <= 2 ^ 11)
    (HN : 1 <= N <= CDC_USB_RX_BUF_SIZ P) :
  let i := usbRxIndex (g s) in
  let started :=
    [E_LDMA_StartTransfer_Tx (usbRxBuffer i) (N - 1);
     E_USBD_Read CDC_EP_DATA_OUT (usbRxBuffer (Z.lxor i 1)) (CDC_USB_RX_BUF_SIZ P)] in
  (dmaTxActive (g s) = false ->
   exists s1,
     UsbDataReceived P USB_STATUS_OK N 0 s = Ok USB_STATUS_OK s1
     /\ trace s1 = trace s ++ started
     /\ dma_tx (hw s1) = dma_tx (hw s) ++ [(usbRxBuffer i, N - 1)])
  /\ (dmaTxActive (g s) = true ->
      exists s1 s2,
        UsbDataReceived P USB_STATUS_OK N 0 s = Ok USB_STATUS_OK s1
        /\ trace s1 = trace s
        /\ dma_tx (hw s1) = dma_tx (hw s)
        /\ DmaTxComplete P s1 = Ok tt s2
        /\ trace s2 = trace s ++ started
        /\ dma_tx (hw s2) = dma_tx (hw s) ++ [(usbRxBuffer i, N - 1)]).
Proof.
  intros i started. subst i started.
  assert (Hpos : (N >? 0) = true) by (apply gtb_pos; lia).
  assert (Hu : u32 (N - 1) = N - 1) by (apply u32_small; lia).
  assert (Hs : s32 N = N) by (apply s32_small; lia).
  assert (Hs1 : s32 (N - 1) = N - 1) by (apply s32_small; lia).
  assert (Hf : xferCnt_field (N - 1) = N - 1) by (apply xferCnt_field_small; lia).
  break_state s; cbn [g hw trace usbRxIndex dmaTxActive dma_tx].
  split; intro Hact; subst.
  - eexists. unfold UsbDataReceived. rewrite Hpos.
    unfold_collab. unfold_monad. cbn.
    rewrite Hu, Hf, lxor_1_1, <- app_assoc. cbn.
    repeat split; reflexivity.
  - do 2 eexists.
    split.
    { unfold UsbDataReceived. rewrite Hpos. unfold_monad. cbn. reflexivity. }
    unfold DmaTxComplete. unfold_collab. unfold_monad. cbn.
    rewrite Hs, Hs1, Hf, lxor_1_1, <- app_assoc. cbn.
    repeat split; reflexivity.
Qed.

Lemma dma_tx_bytes_started (h h' : Hardware) (b : Buffer) (N : Z) :
  dma_tx h' = dma_tx h ++ [(b, N - 1)] ->
  dma_tx_bytes h' = dma_tx_bytes h ++ [N].
Proof.
  intro E. unfold dma_tx_bytes. rewrite E, map_app. cbn [map snd].
  unfold xferCnt_bytes. replace (N - 1 + 1) with N by lia. reflexivity.
Qed.

(** C2 (as amended): a successful USB reception of N bytes, 1 <= N <=
    maximum packet size, leads to a UART-transmit DMA, read from the slot
    the packet was received into, whose descriptor count field is N - 1
    and which therefore moves exactly N bytes: started by UsbDataReceived
    itself when no UART transmit is active, and otherwise by the next
    DmaTxComplete, from the count UsbDataReceived recorded. *)
Theorem C2_uart_transmit_carries_all_received_bytes (s : State) (N : Z)
    (Hmax : CDC_USB_RX_BUF_SIZ P <= 2 ^ 11)
    (HN : 1 <= N <= CDC_USB_RX_BUF_SIZ P) :
  let i := usbRxIndex (g s) in
  let started :=
    [E_LDMA_StartTransfer_Tx (usbRxBuffer i) (N - 1);
     E_USBD_Read CDC_EP_DATA_OUT (usbRxBuffer (Z.lxor i 1)) (CDC_USB_RX_BUF_SIZ P)] in
  (dmaTxActive (g s) = false ->
   exists s1,
     UsbDataReceived P USB_STATUS_OK N 0 s = Ok USB_STATUS_OK s1
     /\ trace s1 = trace s ++ started
     /\ dma_tx (hw s1) = dma_tx (hw s) ++ [(usbRxBuffer i, N - 1)]
     /\ dma_tx_bytes (hw s1) = dma_tx_bytes (hw s) ++ [N])
  /\ (dmaTxActive (g s) = true ->
      exists s1 s2,
        UsbDataReceived P USB_STATUS_OK N 0 s = Ok USB_STATUS_OK s1
        /\ trace s1 = trace s
        /\ dma_tx (hw s1) = dma_tx (hw s)
        /\ DmaTxComplete P s1 = Ok tt s2
        /\ trace s2 = trace s ++ started
        /\ dma_tx (hw s2) = dma_tx (hw s) ++ [(usbRxBuffer i, N - 1)]
        /\ dma_tx_bytes (hw s2) = dma_tx_bytes (hw s) ++ [N]).
Proof.
  intros i started. subst i started.
  destruct (uart_transmit_started s N Hmax HN) as [Hnow Hlater].
  split; intro Hact.
  - destruct (Hnow Hact) as (s1 & E & T & D).
    exists s1. repeat split; try assumption.
    exact (dma_tx_bytes_started _ _ _ _ D).
  - destruct (Hlater Hact) as (s1 & s2 & E1 & T1 & D1 & E2 & T2 & D2).
    exists s1, s2. repeat split; try assumption.
    exact (dma_tx_bytes_started _ _ _ _ D2).
Qed.

End UsbToUart.

(** ** Frame property: the two directions do not touch each other *)

Ltac unfold_handlers :=
  unfold UsbDataReceived, DmaTxComplete, UsbDataTransmitted, UartRxTimeout,
    DmaRxComplete.

(** Case analysis on every test a handler run in hypothesis [H] makes. *)
Ltac split_run H :=
  repeat match type of H with
         | context [if ?c then _ else _] =>
             let E := fresh "E" in destruct c eqn:E; cbn in H
         | context [match ?c with _ => _ end] =>
             let E := fresh "E" in destruct c eqn:E; cbn in H
         end.

Lemma uart_to_usb_event_frame (P : Platform) (e : Event) (s s' : State) :
  distinct_channels P ->
  is_uart_to_usb e = true ->
  step P e s = Some s' ->
  usb_to_uart_view s' = usb_to_uart_view s.
Proof.
  intros HP He H. break_state s. unfold distinct_channels in HP.
  destruct e; try discriminate He; clear He;
    split_exec H; try discriminate H;
    try (exfalso; apply HP; apply Z.eqb_eq; assumption);
    inversion H; reflexivity.
Qed.

Lemma uart_to_usb_run_frame (P : Platform) (es : list Event) :
  distinct_channels P ->
  forallb is_uart_to_usb es = true ->
  forall s s', run P es s = Some s' ->
  usb_to_uart_view s' = usb_to_uart_view s.
Proof.
  intros HP. induction es as [| e es IH]; intros Hes s s' H.
  - cbn in H. inversion H. reflexivity.
  - cbn in Hes. apply andb_prop in Hes. destruct Hes as [He Hes].
    cbn in H. destruct (step P e s) as [s1 |] eqn:E; [| discriminate H].
    rewrite (IH Hes _ _ H).
    apply (uart_to_usb_event_frame P e); assumption.
Qed.

Section Backpressure.

Variable P : Platform.

(** C4: with a UART-transmit DMA in flight, a second successful packet of
    N bytes is only recorded: its count is stored, nothing is started and
    no USB receive is armed, so no further packet can complete.  Whatever
    the other direction does meanwhile, the count stays, and the completion
    of the drain in flight starts the drain of the recorded packet (count
    field N - 1, from the slot the packet is in) and arms the USB receive
    into the slot just freed. *)
Theorem C4_deferred_packet_is_drained_on_completion
    (s : State) (N : Z) (d : Buffer * Z)
    (HP : distinct_channels P)
    (Hmax : CDC_USB_RX_BUF_SIZ P <= 2 ^ 11)
    (HN : 1 <= N <= CDC_USB_RX_BUF_SIZ P)
    (Hdrain : dma_tx (hw s) = [d])
    (Hact : dmaTxActive (g s) = true)
    (Harmed : usb_out (hw s) = [usbRxBuffer (usbRxIndex (g s))]) :
  exists s0,
    step P (EvUsbOut USB_STATUS_OK N) s = Some s0
    /\ trace s0 = trace s
    /\ forall es s1,
         forallb is_uart_to_usb es = true ->
         run P es s0 = Some s1 ->
         usbBytesReceived (g s1) = N
         /\ usb_out (hw s1) = []
         /\ dma_tx (hw s1) = [d]
         /\ (forall st n, step P (EvUsbOut st n) s1 = None)
         /\ exists s2,
              step P EvDmaTxDone s1 = Some s2
              /\ dma_tx (hw s2) = [(usbRxBuffer (usbRxIndex (g s)), N - 1)]
              /\ usb_out (hw s2) = [usbRxBuffer (Z.lxor (usbRxIndex (g s)) 1)]
              /\ trace s2 = trace s1 ++
                   [E_LDMA_StartTransfer_Tx (usbRxBuffer (usbRxIndex (g s))) (N - 1);
                    E_USBD_Read CDC_EP_DATA_OUT
                      (usbRxBuffer (Z.lxor (usbRxIndex (g s)) 1))
                      (CDC_USB_RX_BUF_SIZ P)].
Proof.
  assert (Hpos : (N >? 0) = true) by (apply gtb_pos; lia).
  assert (Hs : s32 N = N) by (apply s32_small; lia).
  assert (Hs1 : s32 (N - 1) = N - 1) by (apply s32_small; lia).
  assert (Hf : xferCnt_field (N - 1) = N - 1) by (apply xferCnt_field_small; lia).
  break_state s. cbn in Hdrain, Hact, Harmed. subst.
  eexists. split; [| split].
  - unfold step. cbn. unfold UsbDataReceived. rewrite Hpos.
    unfold_monad. cbn. rewrite Hs. reflexivity.
  - reflexivity.
  - intros es s1 Hes Hrun.
    pose proof (uart_to_usb_run_frame P es HP Hes _ _ Hrun) as V.
    break_state' s1. unfold usb_to_uart_view in V. cbn in V.
    inversion V; subst; clear V. cbn.
    repeat split.
    eexists. split.
    + unfold DmaTxComplete. unfold_collab. unfold_monad. cbn.
      rewrite Hs1, Hf, lxor_1_1. reflexivity.
    + cbn. rewrite <- app_assoc. repeat split; reflexivity.
Qed.

End Backpressure.

(** ** The hand-off invariant *)

Ltac break_hyps :=
  repeat match goal with
         | H : _ \/ _ |- _ => destruct H
         | H : _ /\ _ |- _ => destruct H
         | H : exists _, _ |- _ => destruct H
         | H : _ :: _ = [] |- _ => discriminate H
         | H : [] = _ :: _ |- _ => discriminate H
         | H : _ :: _ = _ :: _ |- _ => inversion H; clear H; subst
         | H : ?a = ?a -> _ |- _ => specialize (H eq_refl)
         end.

Ltac kill_negb :=
  repeat match goal with
         | E : negb ?b = _ |- _ => destruct b; try discriminate E; clear E
         end.

Ltac close_inv :=
  cbn [length] in *;
  repeat match goal with
         | H : (S (length ?l) <= 1)%nat |- _ =>
             destruct l; [clear H | cbn in H; lia]
         end;
  unfold handoff_inv;
  cbn [g hw usb_out dma_tx usb_in usbRxIndex dmaTxActive usbRxActive
       usbTxActive set_usbRxIndex length app map fst] in *;
  try rewrite lxor_1_1;
  repeat split; intros;
  repeat match goal with
         | I : ?x = ?y -> _, H : ?x = ?y |- _ => specialize (I H)
         end;
  break_hyps; try discriminate; try (cbn in *; lia); eauto 6.

Ltac step_case H :=
  split_exec H; try discriminate H; inversion H; subst; clear H;
  kill_negb; break_hyps; subst; close_inv.

Lemma handoff_inv_step (P : Platform) (e : Event) (s s' : State) :
  handoff_inv s -> step P e s = Some s' -> handoff_inv s'.
Proof.
  intros I H. break_state s. unfold handoff_inv in I; cbn in I.
  destruct I as (I1 & I2 & I3 & I4 & I5 & I6).
  destruct e.
  - step_case H.
  - step_case H.
  - step_case H.
  - step_case H.
  - step_case H.
Qed.

Lemma handoff_inv_run (P : Platform) (es : list Event) :
  forall s s', handoff_inv s -> run P es s = Some s' -> handoff_inv s'.
Proof.
  induction es as [| e es IH]; intros s s' I H; cbn in H.
  - inversion H; subst. exact I.
  - destruct (step P e s) as [s1 |] eqn:E; [| discriminate H].
    apply (IH s1); [ apply (handoff_inv_step P e s); assumption | exact H ].
Qed.

Lemma configured_state (P : Platform) (frame baudrate : Z) :
  exists s0, configured P frame baudrate = Some s0
             /\ handoff_inv s0
             /\ dwDTERate (cdcLineCoding (g s0)) = 115200.
Proof.
  eexists. split; [| split].
  - sym_exec. cbn. reflexivity.
  - unfold handoff_inv. cbn. repeat split; auto; discriminate.
  - reflexivity.
Qed.

Lemma handoff_inv_exclusive (s : State) :
  handoff_inv s -> one_drain_per_direction s /\ usb_fill_exclusive s.
Proof.
  intros (I1 & I2 & I3 & I4 & I5 & I6).
  split; [split |].
  - destruct I2 as [-> | [[n ->] | [_ [n ->]]]]; cbn; lia.
  - exact I5.
  - intros b Hb Hsrc.
    destruct I1 as [E | E]; rewrite E in Hb; [contradiction |].
    destruct Hb as [<- | []].
    destruct I2 as [E2 | [[n E2] | [E2 _]]].
    + rewrite E2 in Hsrc. contradiction.
    + rewrite E2 in Hsrc. destruct Hsrc as [Hsrc | []].
      cbn in Hsrc. inversion Hsrc as [Hi].
      exact (lxor_1_neq _ Hi).
    + rewrite E2 in E. discriminate E.
Qed.

(** C3 (amended): in every state the environment can reach from the
    configured state, at most one UART-transmit DMA and at most one bulk IN
    transmission are in flight, and no slot with a USB receive armed into
    it is the source of the UART-transmit DMA in flight. *)
Theorem C3_one_drain_per_direction_and_usb_fill_exclusive
    (P : Platform) (frame baudrate : Z) (s0 s : State)
    (Hinit : configured P frame baudrate = Some s0)
    (Hreach : reachable P s0 s) :
  one_drain_per_direction s /\ usb_fill_exclusive s.
Proof.
  apply handoff_inv_exclusive.
  destruct Hreach as [es Hrun].
  apply (handoff_inv_run P es s0); [| exact Hrun].
  destruct (configured_state P frame baudrate) as (s0' & E & I & _).
  rewrite E in Hinit. inversion Hinit; subst. exact I.
Qed.

(** ** Idle stretches of the UART line *)

Lemma usb_writes_app (a b : list Effect) :
  usb_writes (a ++ b) = usb_writes a ++ usb_writes b.
Proof.
  induction a as [| e a IH]; [reflexivity |].
  destruct e as [| ep ? ? | | | | | | |]; cbn; try exact IH.
  destruct ep; cbn; try exact IH. rewrite IH. reflexivity.
Qed.

Lemma u32_idle : u32 (CDC_USB_TX_BUF_SIZ - CDC_USB_TX_BUF_SIZ) = 0.
Proof. reflexivity. Qed.

Lemma s32_0 : s32 0 = 0.
Proof. reflexivity. Qed.

(** Use what is known about a test to pick the branch a run takes. *)
Ltac decide_tests :=
  repeat (sym_exec; cbn [negb andb is_OK];
          match goal with
          | H : ?c = _ |- context [if ?c then _ else _] => rewrite H
          end);
  sym_exec; cbn [negb andb is_OK].

Ltac decide_tests_in H :=
  repeat (sym_exec_in H; cbn [negb andb is_OK] in H;
          match type of H with
          | context [if ?c then _ else _] =>
              match goal with
              | E : c = _ |- _ => rewrite E in H
              end
          end);
  sym_exec_in H; cbn [negb andb is_OK] in H.

(** While the line is idle and the last transmission was not a full
    packet, nothing is transmitted. *)
Lemma idle_quiet_step (P : Platform) (e : Event) (s s' : State) :
  is_idle_event e = true ->
  idle_quiet P s ->
  step P e s = Some s' ->
  idle_quiet P s' /\ usb_writes (trace s') = usb_writes (trace s).
Proof.
  intros He (Q1 & Q2 & Q3) H. break_state s. cbn in Q1, Q2, Q3. subst.
  assert (Hlast : (LastUsbTxCnt_ =? CDC_BULK_EP_SIZE P) = false)
    by (apply Z.eqb_neq; exact Q2).
  unfold CDC_BULK_EP_SIZE in Hlast.
  destruct e; try discriminate He; clear He.
  - destruct usb_in_ as [| [b len] rest]; [discriminate H |].
    destruct (is_OK status) eqn:Est; decide_tests_in H;
      inversion H; subst; clear H; unfold idle_quiet; cbn; auto.
  - destruct timer_ as [t |]; [| discriminate H].
    sym_exec_in H. rewrite u32_idle in H.
    change (0 =? 0) with true in H. change (0 >? 0) with false in H.
    cbn [andb] in H. rewrite Hlast in H.
    destruct (dwDTERate lc_ =? 0) eqn:Er; decide_tests_in H;
      [discriminate H |].
    inversion H; subst; clear H. unfold idle_quiet; cbn.
    rewrite !usb_writes_app. cbn. rewrite app_nil_r. auto.
Qed.

Lemma idle_quiet_run (P : Platform) (es : list Event) :
  forallb is_idle_event es = true ->
  forall s s', idle_quiet P s -> run P es s = Some s' ->
  idle_quiet P s' /\ usb_writes (trace s') = usb_writes (trace s).
Proof.
  induction es as [| e es IH]; intros Hes s s' Q H; cbn in H.
  - inversion H; subst. auto.
  - cbn in Hes. apply andb_prop in Hes. destruct Hes as [He Hes].
    destruct (step P e s) as [s1 |] eqn:E; [| discriminate H].
    destruct (idle_quiet_step P e s s1 He Q E) as [Q1 W1].
    destruct (IH Hes s1 s' Q1 H) as [Q' W'].
    split; [exact Q' | congruence].
Qed.

Section ZeroLengthPacket.

Variable P : Platform.

(** C5: when the last bulk IN transmission carried exactly
    CDC_BULK_EP_SIZE bytes and has completed, a timer tick that finds no
    byte received stops the UART-receive DMA and, through DmaRxComplete,
    submits one transmission of length 0; whatever ticks and transmit
    completions follow while the line stays idle, no further transmission
    is submitted. *)
Theorem C5_zero_length_packet_exactly_once (s : State) (t : Z)
    (Hsize : CDC_BULK_EP_SIZE P <> 0)
    (Hrate : dwDTERate (cdcLineCoding (g s)) <> 0)
    (Htimer : timer (hw s) = Some t)
    (Hlast : LastUsbTxCnt (g s) = CDC_BULK_EP_SIZE P)
    (Hdone : usbTxActive (g s) = false)
    (Hrun : dmaRxActive (g s) = true)
    (Hidle : rx_remaining (hw s) = CDC_USB_TX_BUF_SIZ) :
  exists s1,
    step P EvTimer s = Some s1
    /\ trace s1 = trace s ++
         [E_LDMA_StopTransfer (channel_no P CH_UART_RX);
          E_USBD_Write CDC_EP_DATA_IN (uartRxBuffer (uartRxIndex (g s))) 0;
          E_LDMA_StartTransfer_Rx (uartRxBuffer (Z.lxor (uartRxIndex (g s)) 1));
          E_USBTIMER_Start (SL_MAX 10 (50000 / dwDTERate (cdcLineCoding (g s))))]
    /\ usb_writes (trace s1) = usb_writes (trace s) ++ [0]
    /\ forall es s2,
         forallb is_idle_event es = true ->
         run P es s1 = Some s2 ->
         usb_writes (trace s2) = usb_writes (trace s) ++ [0].
Proof.
  break_state s. fields. subst.
  assert (Er : (dwDTERate lc_ =? 0) = false) by (apply Z.eqb_neq; exact Hrate).
  assert (Hs1 : exists s1,
             step P EvTimer
               {| g := {| cdcLineCoding := lc_; usbRxIndex := usbRxIndex_;
                          usbBytesReceived := usbBytesReceived_;
                          uartRxIndex := uartRxIndex_;
                          uartRxCount := uartRxCount_;
                          LastUsbTxCnt := CDC_BULK_EP_SIZE P;
                          dmaRxCompleted := dmaRxCompleted_;
                          usbRxActive := usbRxActive_;
                          dmaTxActive := dmaTxActive_;
                          usbTxActive := false; dmaRxActive := true;
                          descriptorTx_xferCnt := xferCnt_;
                          descriptorTx_srcAddr := srcAddr_;
                          descriptorRx_dstAddr := dstAddr_ |};
                  hw := {| uart_FRAME := frame_; uart_baudrate := baud_;
                           timer := Some t; usb_out := usb_out_;
                           usb_in := usb_in_; dma_tx := dma_tx_;
                           dma_rx := dma_rx_;
                           rx_remaining := CDC_USB_TX_BUF_SIZ |};
                  trace := trace_ |} = Some s1
             /\ trace s1 = trace_ ++
                  [E_LDMA_StopTransfer (channel_no P CH_UART_RX);
                   E_USBD_Write CDC_EP_DATA_IN (uartRxBuffer uartRxIndex_) 0;
                   E_LDMA_StartTransfer_Rx (uartRxBuffer (Z.lxor uartRxIndex_ 1));
                   E_USBTIMER_Start (SL_MAX 10 (50000 / dwDTERate lc_))]
             /\ idle_quiet P s1).
  { destruct (CDC_UART_RX_DMA_CHANNEL P =? CDC_UART_TX_DMA_CHANNEL P) eqn:Ech;
      eexists;
      (split;
       [ repeat (progress (decide_tests;
                           rewrite ?u32_idle, ?s32_0, ?Z.eqb_refl));
         reflexivity
       | split;
         [ cbn; rewrite lxor_1_1, <- !app_assoc; reflexivity
         | unfold idle_quiet; cbn; repeat split;
           intro E; apply Hsize; symmetry; exact E ] ]). }
  destruct Hs1 as (s1 & Hstep & Htr & Q).
  exists s1. cbn [g hw trace uartRxIndex cdcLineCoding].
  assert (W : usb_writes (trace s1) = usb_writes trace_ ++ [0])
    by (rewrite Htr, usb_writes_app; reflexivity).
  repeat split; try assumption.
  intros es s2 Hes Hr.
  destruct (idle_quiet_run P es Hes s1 s2 Q Hr) as [_ W2].
  congruence.
Qed.

End ZeroLengthPacket.

Ltac contradict_negb :=
  try match goal with
      | E : negb true = true |- _ => discriminate E
      | E : negb false = false |- _ => discriminate E
      end.





(** Case analysis on the boolean tests and the list and option matches of
    the run in hypothesis [H], leaving the arithmetic as written. *)
Ltac split_tests H :=
  repeat (sym_exec_in H;
          match type of H with
          | None = Some _ => discriminate H
          | context [if ?c then _ else _] =>
              lazymatch type of c with
              | bool => let E := fresh "E" in destruct c eqn:E
              end
          | context [match ?c with _ => _ end] =>
              lazymatch type of c with
              | list _ => let E := fresh "E" in destruct c eqn:E
              | option _ => let E := fresh "E" in destruct c eqn:E
              | prod _ _ => let E := fresh "E" in destruct c eqn:E
              end
          end);
  sym_exec_in H.

Lemma some_eq {A : Type} (a b : A) : Some a = Some b -> a = b.
Proof. intro H. congruence. Qed.

(** The state a successful run ends in, without touching the arithmetic. *)
Ltac take_state H := apply some_eq in H; subst.

(** ** A transmission that failed while the receive pipeline was paused *)

Lemma dead_transmit_step (P : Platform) (e : Event) (s s' : State) :
  dmaRxActive (g s) = false -> dma_rx (hw s) = [] ->
  timer (hw s) = None -> usb_in (hw s) = [] ->
  step P e s = Some s' ->
  dmaRxActive (g s') = false /\ dma_rx (hw s') = []
  /\ timer (hw s') = None /\ usb_in (hw s') = []
  /\ usb_writes (trace s') = usb_writes (trace s).
Proof.
  intros Ha Hd Ht Hi H. break_state s. fields. subst.
  destruct e; split_tests H; try discriminate H; take_state H;
    sym_exec; rewrite ?usb_writes_app; cbn [usb_writes app];
    rewrite ?app_nil_r; repeat split; reflexivity.
Qed.

Lemma dead_transmit_run (P : Platform) (es : list Event) :
  forall s s',
    dmaRxActive (g s) = false -> dma_rx (hw s) = [] ->
    timer (hw s) = None -> usb_in (hw s) = [] ->
    run P es s = Some s' ->
    dmaRxActive (g s') = false /\ dma_rx (hw s') = []
    /\ timer (hw s') = None /\ usb_in (hw s') = []
    /\ usb_writes (trace s') = usb_writes (trace s).
Proof.
  induction es as [| e es IH]; intros s s' Ha Hd Ht Hi H; cbn [run] in H.
  - apply some_eq in H. subst. auto.
  - destruct (step P e s) as [s1 |] eqn:E; [| discriminate H].
    destruct (dead_transmit_step P e s s1 Ha Hd Ht Hi E)
      as (Ha1 & Hd1 & Ht1 & Hi1 & W1).
    destruct (IH s1 s' Ha1 Hd1 Ht1 Hi1 H) as (Ha2 & Hd2 & Ht2 & Hi2 & W2).
    repeat split; congruence.
Qed.

Section IdleFlush.

Variable P : Platform.







End IdleFlush.

(** ** Transmit completion and deactivation *)

(** C7 (amended): when UsbDataTransmitted runs with success status while
    the UART-receive DMA is still active (no receive finished meanwhile),
    it clears usbTxActive and does nothing else: the idle timer is left as
    it is, whatever the size of the packet just sent.  With any other
    status it changes nothing. *)
Theorem C7_transmit_complete_only_clears_flag
    (s : State) (status : USB_Status_TypeDef) (xferred remaining : Z)
    (Hactive : dmaRxActive (g s) = true) :
  UsbDataTransmitted status xferred remaining s =
    Ok USB_STATUS_OK
       (if is_OK status
        then {| g := set_usbTxActive false (g s); hw := hw s; trace := trace s |}
        else s).
Proof.
  break_state s. fields. subst.
  destruct (is_OK status) eqn:E; sym_exec; rewrite E; reflexivity.
Qed.

Section Deactivation.

Variable P : Platform.

(** C8 (amended): leaving the configured state stops the timer and leaves
    every driver variable, the flags included, as it was; with channel 0
    for UART transmit, as in the documented configuration, the UART-receive
    DMA is stopped.  A further state change to any state but CONFIGURED
    changes neither the driver variables nor the collaborators' state. *)
Theorem C8_deactivate_idempotent
    (s : State) (newState oldState2 newState2 : USBD_State_TypeDef)
    (Hnew : is_CONFIGURED newState = false)
    (Hnew2 : is_CONFIGURED newState2 = false)
    (Htx : CDC_UART_TX_DMA_CHANNEL P = 0) :
  exists s1 s2,
    deactivate P newState s = Ok tt s1
    /\ timer (hw s1) = None
    /\ dma_rx (hw s1) = []
    /\ g s1 = g s
    /\ CDC_StateChangeEvent P oldState2 newState2 s1 = Ok tt s2
    /\ g s2 = g s1
    /\ hw s2 = hw s1.
Proof.
  break_state s.
  assert (Hch : Z.lor (CDC_UART_RX_DMA_CHANNEL P) (CDC_UART_TX_DMA_CHANNEL P)
                = CDC_UART_RX_DMA_CHANNEL P)
    by (rewrite Htx; apply Z.lor_0_r).
  destruct (CDC_UART_RX_DMA_CHANNEL P =? CDC_UART_TX_DMA_CHANNEL P) eqn:Ech.
  all: destruct (is_SUSPENDED newState) eqn:Es1.
  all: destruct (is_CONFIGURED oldState2) eqn:Eo, (is_SUSPENDED newState2) eqn:Es2.
  all: do 2 eexists.
  all: split;
    [ sym_exec; rewrite Hnew; cbn [is_CONFIGURED andb negb];
      rewrite ?Es1; cbn [andb negb]; sym_exec;
      rewrite Hch, Z.eqb_refl, Ech; reflexivity |].
  all: split; [reflexivity |].
  all: split; [reflexivity |].
  all: split; [reflexivity |].
  all: split;
    [ sym_exec; rewrite Hnew2, ?Eo, ?Es2; cbn [andb negb]; rewrite ?Es2;
      sym_exec; rewrite ?Hch, ?Z.eqb_refl, ?Ech; reflexivity |].
  all: split; reflexivity.
Qed.

End Deactivation.

(** ** The idle-timeout interval *)

Lemma SL_MAX_max (a b : Z) : SL_MAX a b = Z.max a b.
Proof.
  unfold SL_MAX. destruct (a >? b) eqn:E.
  - apply Z.gtb_lt in E. lia.
  - assert (~ b < a) by (intro H; apply Z.gtb_lt in H; congruence). lia.
Qed.

Lemma timer_arms_app (a b : list Effect) :
  timer_arms (a ++ b) = timer_arms a ++ timer_arms b.
Proof.
  induction a as [| e a IH]; [reflexivity |].
  destruct e; cbn; rewrite ?IH; reflexivity.
Qed.

Ltac give_arms :=
  cbn [trace]; rewrite <- ?app_assoc;
  first [ exists []; rewrite app_nil_r; split; [reflexivity | constructor]
        | eexists; split;
          [ reflexivity
          | cbn [timer_arms app];
            repeat (constructor; try apply SL_MAX_max) ] ].

Section Timeout.

Variable P : Platform.

(** C9: with a baudrate r > 0 in the line coding, CDC_RX_TIMEOUT is
    max(10, 50000 / r), and every timer arm made by a completion handler,
    by the timer tick or by the change to the configured state uses that
    value, computed from the line coding as it is when the arm is made. *)
Theorem C9_timeout_is_max_10_of_5_char_times (s : State)
    (Hrate : 0 < dwDTERate (cdcLineCoding (g s))) :
  let T := Z.max 10 (50000 / dwDTERate (cdcLineCoding (g s))) in
  CDC_RX_TIMEOUT s = Ok T s
  /\ (forall e s',
        step P e s = Some s' ->
        exists tr, trace s' = trace s ++ tr
                   /\ Forall (fun t => t = T) (timer_arms tr))
  /\ (forall oldState,
        exists s',
          CDC_StateChangeEvent P oldState USBD_STATE_CONFIGURED s = Ok tt s'
          /\ timer (hw s') = Some T
          /\ exists tr, trace s' = trace s ++ tr /\ timer_arms tr = [T]).
Proof.
  intro T. subst T. break_state s. fields.
  assert (Er : (dwDTERate lc_ =? 0) = false) by (apply Z.eqb_neq; lia).
  split; [| split].
  - sym_exec. rewrite Er, SL_MAX_max. reflexivity.
  - intros e s' H.
    destruct e; split_exec H; try discriminate H;
      inversion H; subst; clear H; give_arms.
  - intro oldState. eexists. split; [| split].
    + sym_exec. cbn [is_CONFIGURED]. sym_exec. rewrite Er, SL_MAX_max.
      reflexivity.
    + reflexivity.
    + eexists. split.
      * cbn [trace]. rewrite <- !app_assoc. reflexivity.
      * reflexivity.
Qed.

End Timeout.

(** ** Baudrate zero *)

Lemma le32_roundtrip (x : Z) :
  0 <= x < 2 ^ 32 ->
  u8 (x mod 256) + 256 * u8 ((x / 256) mod 256)
  + 65536 * u8 ((x / 65536) mod 256) + 16777216 * u8 ((x / 16777216) mod 256)
  = x.
Proof.
  intro H. unfold u8. change (2 ^ 8) with 256. change (2 ^ 32) with 4294967296 in H.
  rewrite !Z.mod_mod by lia.
  assert (H3 : (x / 16777216) mod 256 = x / 16777216).
  { apply Z.mod_small. split.
    - apply Z.div_pos; lia.
    - apply Z.div_lt_upper_bound; lia. }
  rewrite H3.
  pose proof (Z.div_mod x 256 ltac:(lia)) as D0.
  pose proof (Z.div_mod (x / 256) 256 ltac:(lia)) as D1.
  pose proof (Z.div_mod (x / 65536) 256 ltac:(lia)) as D2.
  assert (E1 : x / 256 / 256 = x / 65536)
    by (rewrite Z.div_div by lia; reflexivity).
  assert (E2 : x / 65536 / 256 = x / 16777216)
    by (rewrite Z.div_div by lia; reflexivity).
  rewrite E1 in D1. rewrite E2 in D2. lia.
Qed.

Section BaudrateZero.

Variable P : Platform.

(** C10: LineCodingReceived accepts an 8N1 line coding with any baudrate,
    0 included, and stores it; CDC_RX_TIMEOUT faults exactly when the
    stored baudrate is 0, and with it every path that arms the timer: the
    change to the configured state, DmaRxComplete handing a buffer to USB,
    and UsbDataTransmitted restarting a paused receive. *)
Theorem C10_zero_baudrate_accepted_and_division_unguarded :
  (forall s rate,
     exists s',
       SET_LINE_CODING P (lineCoding_payload rate 0 0 8) s = Ok USB_STATUS_OK s'
       /\ dwDTERate (cdcLineCoding (g s')) = u32 rate
       /\ uart_baudrate (hw s') = u32 rate)
  /\ (forall s,
        CDC_RX_TIMEOUT s = DivisionByZero
        <-> dwDTERate (cdcLineCoding (g s)) = 0)
  /\ (forall s oldState,
        dwDTERate (cdcLineCoding (g s)) = 0 ->
        CDC_StateChangeEvent P oldState USBD_STATE_CONFIGURED s = DivisionByZero
        /\ (usbTxActive (g s) = false -> DmaRxComplete s = DivisionByZero)
        /\ (dmaRxActive (g s) = false ->
            UsbDataTransmitted USB_STATUS_OK 0 0 s = DivisionByZero)).
Proof.
  split; [| split].
  - intros s rate.
    assert (Hr : 0 <= u32 rate < 2 ^ 32)
      by (unfold u32; apply Z.mod_pos_bound; reflexivity).
    pose proof (le32_roundtrip (u32 rate) Hr) as RT.
    unfold SET_LINE_CODING, bind at 1.
    rewrite setup_accepts_set_line_coding. cbn [is_OK].
    break_state s. destruct lc_.
    unfold ep0_data_stage, lineCoding_payload, overwrite_lineCoding, le32.
    cbn [length app Nat.min firstn skipn map Z.of_nat Pos.of_succ_nat
         Pos.succ lineCoding_bytes].
    unfold LineCodingReceived.
    sym_exec.
    cbn [is_OK andb lineCoding_of_bytes nth bDataBits bParityType
         bCharFormat dwDTERate].
    change (7 =? 7) with true. cbn [andb].
    unfold frame_databits, frame_parity, frame_stopbits.
    change (u8 8 =? 5) with false. change (u8 8 =? 6) with false.
    change (u8 8 =? 7) with false. change (u8 8 =? 8) with true.
    change (u8 0 =? 0) with true.
    cbv beta iota.
    unfold write_FRAME, USART_BaudrateAsyncSet. sym_exec.
    eexists. split; [reflexivity |].
    cbn [g hw cdcLineCoding dwDTERate uart_baudrate lineCoding_of_bytes nth].
    rewrite RT. split; reflexivity.
  - intro s. break_state s. sym_exec.
    destruct (dwDTERate lc_ =? 0) eqn:E.
    + apply Z.eqb_eq in E. split; [intros _; exact E | reflexivity].
    + apply Z.eqb_neq in E. split; [discriminate | intro H; contradiction].
  - intros s oldState H0. break_state s. fields.
    assert (E : (dwDTERate lc_ =? 0) = true) by (apply Z.eqb_eq; exact H0).
    split; [| split].
    + sym_exec. cbn [is_CONFIGURED]. sym_exec. rewrite E. reflexivity.
    + intros ->. destruct dmaRxCompleted_; decide_tests; reflexivity.
    + intros ->. decide_tests. reflexivity.
Qed.

End BaudrateZero.

(** * Concrete runs on the EFM32GG11 configuration *)

Ltac by_run := vm_compute; first [reflexivity | discriminate | tauto].

Lemma configured_gg11_eq : configured gg11 4101 115200 = Some configured_gg11.
Proof. vm_compute. reflexivity. Qed.

(** A request for 9600 baud, 7 data bits, mark parity is rejected, yet the
    line-coding variable now holds the rejected values. *)
Lemma C1_rejected_request_overwrites_line_coding :
  exists s',
    SET_LINE_CODING gg11 (lineCoding_payload 9600 0 3 7) configured_gg11
    = Ok USB_STATUS_REQ_ERR s'
    /\ cdcLineCoding (g configured_gg11)
       = {| dwDTERate := 115200; bCharFormat := 0; bParityType := 0;
            bDataBits := 8; dummy := 0 |}
    /\ cdcLineCoding (g s')
       = {| dwDTERate := 9600; bCharFormat := 0; bParityType := 3;
            bDataBits := 7; dummy := 0 |}
    /\ cdcLineCoding (g s') <> cdcLineCoding (g configured_gg11).
Proof.
  eexists. split; [vm_compute; reflexivity |].
  split; [vm_compute; reflexivity |]. split; [vm_compute; reflexivity |].
  vm_compute. discriminate.
Qed.

Lemma C1_witness :
  status_of (SET_LINE_CODING gg11 (lineCoding_payload 9600 0 3 7) configured_gg11)
  = Some USB_STATUS_REQ_ERR.
Proof.
  assert (Hlen : length (lineCoding_payload 9600 0 3 7) = 7%nat) by by_run.
  assert (Hbad : supported (overwrite_lineCoding (lineCoding_payload 9600 0 3 7)
                              (cdcLineCoding (g configured_gg11))) = false)
    by by_run.
  rewrite (proj1 (C1_unsupported_rejected_uart_untouched gg11 configured_gg11
                    (lineCoding_payload 9600 0 3 7) Hlen Hbad)).
  reflexivity.
Defined.

Lemma C2_witness :
  exists s1,
    UsbDataReceived gg11 USB_STATUS_OK 10 0 configured_gg11 = Ok USB_STATUS_OK s1
    /\ dma_tx (hw s1) = [(usbRxBuffer 0, 9)]
    /\ dma_tx_bytes (hw s1) = [10].
Proof.
  assert (Hmax : CDC_USB_RX_BUF_SIZ gg11 <= 2 ^ 11) by by_run.
  assert (HN : 1 <= 10 <= CDC_USB_RX_BUF_SIZ gg11) by (split; by_run).
  assert (Hidle : dmaTxActive (g configured_gg11) = false) by by_run.
  destruct (C2_uart_transmit_carries_all_received_bytes
              gg11 configured_gg11 10 Hmax HN) as [H _].
  destruct (H Hidle) as (s1 & E & _ & D & B).
  exists s1. split; [exact E |]. split.
  - rewrite D. vm_compute. reflexivity.
  - rewrite B. vm_compute. reflexivity.
Defined.

(** A packet of 10 bytes received in the configured state: the transfer
    started for it has count field 9 and moves all 10 bytes, not 9. *)
Lemma C2_ten_byte_packet_is_transmitted_whole :
  exists s1,
    UsbDataReceived gg11 USB_STATUS_OK 10 0 configured_gg11 = Ok USB_STATUS_OK s1
    /\ dma_tx (hw s1) = [(usbRxBuffer 0, 9)]
    /\ dma_tx_bytes (hw s1) = [10]
    /\ dma_tx_bytes (hw s1) <> [10 - 1].
Proof.
  eexists. split; [vm_compute; reflexivity |].
  split; [vm_compute; reflexivity |].
  split; [vm_compute; reflexivity |].
  vm_compute. discriminate.
Qed.

(** After two packets the cursor points at slot 0 while the drain of the
    first packet, out of slot 0, is still in flight. *)
Lemma C3_cursor_slot_is_drain_source :
  exists s,
    run gg11 [EvUsbOut USB_STATUS_OK 10; EvUsbOut USB_STATUS_OK 20]
        configured_gg11 = Some s
    /\ usbRxIndex (g s) = 0
    /\ dma_tx (hw s) = [(usbRxBuffer 0, 9)]
    /\ ~ cursor_exclusive s.
Proof.
  eexists. split; [vm_compute; reflexivity |].
  split; [reflexivity |]. split; [reflexivity |].
  intro H. apply (H (usbRxBuffer 0)); vm_compute; auto.
Qed.

Lemma C3_witness :
  one_drain_per_direction
    (after [EvUsbOut USB_STATUS_OK 10; EvUsbOut USB_STATUS_OK 20])
  /\ usb_fill_exclusive
       (after [EvUsbOut USB_STATUS_OK 10; EvUsbOut USB_STATUS_OK 20]).
Proof.
  assert (Hinit : configured gg11 4101 115200 = Some configured_gg11) by by_run.
  assert (Hrun : run gg11 [EvUsbOut USB_STATUS_OK 10; EvUsbOut USB_STATUS_OK 20]
                   configured_gg11
                 = Some (after [EvUsbOut USB_STATUS_OK 10;
                                EvUsbOut USB_STATUS_OK 20])) by by_run.
  apply (C3_one_drain_per_direction_and_usb_fill_exclusive
           gg11 4101 115200 configured_gg11 _ Hinit).
  exists [EvUsbOut USB_STATUS_OK 10; EvUsbOut USB_STATUS_OK 20].
  exact Hrun.
Defined.

(** The other direction: UsbDataTransmitted restarts the UART-receive DMA
    without updating its destination, as DmaRxComplete does, so after two
    full buffers the DMA fills slot 1 while slot 1 is being transmitted. *)
Lemma uart_receive_restart_keeps_stale_destination :
  let s := after (uart_bytes 127 ++ uart_bytes 127 ++ [EvUsbIn USB_STATUS_OK]) in
  usb_in (hw s) = [(uartRxBuffer 1, 127)]
  /\ dma_rx (hw s) = [uartRxBuffer 1]
  /\ uartRxIndex (g s) = 0
  /\ ~ uart_fill_exclusive s.
Proof.
  cbv zeta.
  split; [vm_compute; reflexivity |].
  split; [vm_compute; reflexivity |].
  split; [vm_compute; reflexivity |].
  intro H. apply (H (uartRxBuffer 1)); vm_compute; auto.
Qed.

Lemma C4_witness :
  exists s0,
    step gg11 (EvUsbOut USB_STATUS_OK 20) (after [EvUsbOut USB_STATUS_OK 10])
    = Some s0
    /\ trace s0 = trace (after [EvUsbOut USB_STATUS_OK 10]).
Proof.
  assert (HP : distinct_channels gg11) by by_run.
  assert (Hmax : CDC_USB_RX_BUF_SIZ gg11 <= 2 ^ 11) by by_run.
  assert (HN : 1 <= 20 <= CDC_USB_RX_BUF_SIZ gg11) by (split; by_run).
  assert (Hd : dma_tx (hw (after [EvUsbOut USB_STATUS_OK 10]))
               = [(usbRxBuffer 0, 9)]) by by_run.
  assert (Ha : dmaTxActive (g (after [EvUsbOut USB_STATUS_OK 10])) = true)
    by by_run.
  assert (Hr : usb_out (hw (after [EvUsbOut USB_STATUS_OK 10]))
               = [usbRxBuffer (usbRxIndex (g (after [EvUsbOut USB_STATUS_OK 10])))])
    by by_run.
  destruct (C4_deferred_packet_is_drained_on_completion gg11
              (after [EvUsbOut USB_STATUS_OK 10]) 20 (usbRxBuffer 0, 9)
              HP Hmax HN Hd Ha Hr) as (s0 & E & T & _).
  exists s0. split; [exact E | exact T].
Defined.

Lemma C5_witness :
  exists s1,
    step gg11 EvTimer
      (after (uart_bytes 64 ++ [EvTimer; EvTimer; EvUsbIn USB_STATUS_OK]))
    = Some s1
    /\ usb_writes (trace s1) = [64; 0].
Proof.
  assert (Hsize : CDC_BULK_EP_SIZE gg11 <> 0) by by_run.
  assert (Hrate : dwDTERate (cdcLineCoding (g
            (after (uart_bytes 64 ++ [EvTimer; EvTimer; EvUsbIn USB_STATUS_OK]))))
          <> 0) by by_run.
  assert (Ht : timer (hw (after (uart_bytes 64 ++
                 [EvTimer; EvTimer; EvUsbIn USB_STATUS_OK]))) = Some 10)
    by by_run.
  assert (Hl : LastUsbTxCnt (g (after (uart_bytes 64 ++
                 [EvTimer; EvTimer; EvUsbIn USB_STATUS_OK])))
               = CDC_BULK_EP_SIZE gg11) by by_run.
  assert (Hd : usbTxActive (g (after (uart_bytes 64 ++
                 [EvTimer; EvTimer; EvUsbIn USB_STATUS_OK]))) = false)
    by by_run.
  assert (Ha : dmaRxActive (g (after (uart_bytes 64 ++
                 [EvTimer; EvTimer; EvUsbIn USB_STATUS_OK]))) = true)
    by by_run.
  assert (Hi : rx_remaining (hw (after (uart_bytes 64 ++
                 [EvTimer; EvTimer; EvUsbIn USB_STATUS_OK])))
               = CDC_USB_TX_BUF_SIZ) by by_run.
  destruct (C5_zero_length_packet_exactly_once gg11 _ 10
              Hsize Hrate Ht Hl Hd Ha Hi)
    as (s1 & E & _ & W & _).
  exists s1. split; [exact E |].
  rewrite W. vm_compute. reflexivity.
Defined.

(** With the full-size transmission still in flight, the tick itself
    submits nothing: it pauses the receive pipeline, and the zero-length
    packet is submitted by UsbDataTransmitted when the transmission
    completes with success. *)
Lemma zero_length_packet_deferred_while_transmitting :
  usb_writes (trace (after (uart_bytes 64 ++ [EvTimer; EvTimer; EvTimer])))
  = [64]
  /\ usb_writes (trace (after (uart_bytes 64 ++
                               [EvTimer; EvTimer; EvTimer;
                                EvUsbIn USB_STATUS_OK])))
     = [64; 0].
Proof. split; vm_compute; reflexivity. Qed.



(** Five bytes have been flushed, fewer than the 64 of a full packet; the
    transmission completes while the UART-receive DMA is active, and the
    timer is still armed afterwards. *)
Lemma C7_timer_not_stopped_after_short_packet :
  let s := after (uart_bytes 5 ++ [EvTimer; EvTimer]) in
  LastUsbTxCnt (g s) = 5
  /\ CDC_BULK_EP_SIZE gg11 = 64
  /\ dmaRxActive (g s) = true
  /\ timer (hw s) = Some 10
  /\ exists s',
       UsbDataTransmitted USB_STATUS_OK 5 0 s = Ok USB_STATUS_OK s'
       /\ usbTxActive (g s') = false
       /\ timer (hw s') = Some 10
       /\ trace s' = trace s.
Proof.
  cbv zeta. repeat (split; [vm_compute; reflexivity |]).
  eexists. split; [vm_compute; reflexivity |].
  repeat split; vm_compute; reflexivity.
Qed.

Lemma C7_witness :
  status_of (UsbDataTransmitted USB_STATUS_OK 5 0
               (after (uart_bytes 5 ++ [EvTimer; EvTimer])))
  = Some USB_STATUS_OK.
Proof.
  assert (Ha : dmaRxActive (g (after (uart_bytes 5 ++ [EvTimer; EvTimer])))
               = true) by by_run.
  rewrite (C7_transmit_complete_only_clears_flag _ USB_STATUS_OK 5 0 Ha).
  reflexivity.
Defined.

(** Deactivating while a UART-transmit DMA is in flight: the flags keep
    their values and that DMA is not stopped. *)
Lemma C8_flags_not_cleared_by_deactivate :
  let s := after [EvUsbOut USB_STATUS_OK 10] in
  exists s1,
    deactivate gg11 USBD_STATE_ADDRESSED s = Ok tt s1
    /\ flags s1 = [true; true; false; true; true]
    /\ dma_tx (hw s1) = [(usbRxBuffer 0, 9)]
    /\ trace s1 = trace s ++ [E_USBTIMER_Stop; E_LDMA_StopTransfer 1].
Proof.
  cbv zeta. eexists. split; [vm_compute; reflexivity |].
  repeat split; vm_compute; reflexivity.
Qed.

Lemma C8_witness :
  exists s1,
    deactivate gg11 USBD_STATE_ADDRESSED (after [EvUsbOut USB_STATUS_OK 10])
    = Ok tt s1
    /\ timer (hw s1) = None.
Proof.
  assert (H1 : is_CONFIGURED USBD_STATE_ADDRESSED = false) by by_run.
  assert (H2 : is_CONFIGURED USBD_STATE_DEFAULT = false) by by_run.
  assert (H3 : CDC_UART_TX_DMA_CHANNEL gg11 = 0) by by_run.
  destruct (C8_deactivate_idempotent gg11 (after [EvUsbOut USB_STATUS_OK 10])
              USBD_STATE_ADDRESSED USBD_STATE_ADDRESSED USBD_STATE_DEFAULT
              H1 H2 H3)
    as (s1 & s2 & E & T & _).
  exists s1. split; [exact E | exact T].
Defined.

Lemma C9_witness :
  exists T, CDC_RX_TIMEOUT configured_gg11 = Ok T configured_gg11 /\ T = 10.
Proof.
  assert (Hrate : 0 < dwDTERate (cdcLineCoding (g configured_gg11))) by by_run.
  eexists. split.
  - exact (proj1 (C9_timeout_is_max_10_of_5_char_times gg11 configured_gg11 Hrate)).
  - vm_compute. reflexivity.
Defined.

Lemma C10_witness :
  exists s',
    SET_LINE_CODING gg11 (lineCoding_payload 0 0 0 8) configured_gg11
    = Ok USB_STATUS_OK s'
    /\ CDC_StateChangeEvent gg11 USBD_STATE_ADDRESSED USBD_STATE_CONFIGURED s'
       = DivisionByZero.
Proof.
  destruct (C10_zero_baudrate_accepted_and_division_unguarded gg11)
    as (A & _ & C).
  destruct (A configured_gg11 0) as (s' & E & R & _).
  exists s'. split; [exact E |].
  exact (proj1 (C s' USBD_STATE_ADDRESSED R)).
Defined.

(** * Beyond the claims *)

Lemma received_small (r : Z) :
  0 <= r <= CDC_USB_TX_BUF_SIZ ->
  s32 (u32 (CDC_USB_TX_BUF_SIZ - r)) = CDC_USB_TX_BUF_SIZ - r.
Proof.
  intro H. unfold CDC_USB_TX_BUF_SIZ in *.
  rewrite u32_small by lia. apply s32_small. lia.
Qed.

Ltac close_uart_inv :=
  unfold uart_inv; sym_exec;
  rewrite ?received_small by lia;
  unfold CDC_USB_TX_BUF_SIZ in *;
  repeat split; intros; try discriminate; try congruence; try lia;
  try (eexists; reflexivity).

Lemma uart_inv_step (P : Platform) (e : Event) (s s' : State) :
  uart_inv s -> step P e s = Some s' -> uart_inv s'.
Proof.
  intros I H. break_state s. unfold uart_inv in I. fields.
  destruct I as (I1 & I2 & I3 & I4).
  destruct dmaRxActive_;
    [ destruct (I1 eq_refl) as ((d & Hd) & Ht & Hc & Hr); clear I1 I2
    | destruct (I2 eq_refl) as (Hd & Ht & Hu); clear I1 I2 ];
    subst.
  all: destruct e; split_tests H; try discriminate H; try contradiction;
       take_state H; kill_negb.
  all: close_uart_inv.
Qed.

Lemma uart_inv_run (P : Platform) (es : list Event) :
  forall s s', uart_inv s -> run P es s = Some s' -> uart_inv s'.
Proof.
  induction es as [| e es IH]; intros s s' I H; cbn [run] in H.
  - apply some_eq in H. subst. exact I.
  - destruct (step P e s) as [s1 |] eqn:E; [| discriminate H].
    apply (IH s1); [ apply (uart_inv_step P e s); assumption | exact H ].
Qed.

Lemma configured_uart_inv (P : Platform) (frame baudrate : Z) (s0 : State) :
  configured P frame baudrate = Some s0 ->
  uart_inv s0 /\ usb_writes (trace s0) = [].
Proof.
  intro H. sym_exec_in H. cbn [is_CONFIGURED] in H. sym_exec_in H.
  change (115200 =? 0) with false in H. sym_exec_in H.
  take_state H. split; [| reflexivity].
  unfold uart_inv. sym_exec. unfold CDC_USB_TX_BUF_SIZ.
  repeat split; intros; try discriminate; try lia.
  eexists; reflexivity.
Qed.

(** X1: in every state reachable from the configured state the idle timer
    is armed exactly when the receive pipeline is active, and then exactly
    one UART-receive DMA is running; while the pipeline is paused no
    UART-receive DMA runs and a USB transmission is still accounted for. *)
Theorem X1_timer_armed_iff_receive_active
    (P : Platform) (frame baudrate : Z) (s0 s : State)
    (Hinit : configured P frame baudrate = Some s0)
    (Hreach : reachable P s0 s) :
  (timer (hw s) <> None <-> dmaRxActive (g s) = true)
  /\ (dmaRxActive (g s) = true <-> exists d, dma_rx (hw s) = [d])
  /\ (dmaRxActive (g s) = false ->
      dma_rx (hw s) = [] /\ usbTxActive (g s) = true).
Proof.
  destruct Hreach as [es Hrun].
  destruct (configured_uart_inv P frame baudrate s0 Hinit) as [I0 _].
  pose proof (uart_inv_run P es s0 s I0 Hrun) as (I1 & I2 & _ & _).
  destruct (dmaRxActive (g s)).
  - destruct (I1 eq_refl) as (Hd & Ht & _ & _).
    split; [| split].
    + split; intros _; [reflexivity | exact Ht].
    + split; intros _; [exact Hd | reflexivity].
    + intro H. discriminate H.
  - destruct (I2 eq_refl) as (Hd & Ht & Hu).
    split; [| split].
    + split; intro H; [exfalso; exact (H Ht) | discriminate H].
    + split; intro H; [discriminate H |].
      destruct H as [d H]. rewrite Hd in H. discriminate H.
    + intros _. split; assumption.
Qed.

Ltac give_fitting_writes :=
  sym_exec; rewrite ?usb_writes_app; cbn [usb_writes app];
  rewrite ?app_nil_r;
  first [ exists []; rewrite app_nil_r; split; [reflexivity | constructor]
        | eexists; split;
          [ reflexivity
          | repeat constructor; unfold fits_buffer;
            rewrite ?received_small by lia;
            unfold CDC_USB_TX_BUF_SIZ in *; lia ] ].

Lemma usb_writes_fit_step (P : Platform) (e : Event) (s s' : State) :
  uart_inv s -> step P e s = Some s' ->
  exists zs, usb_writes (trace s') = usb_writes (trace s) ++ zs
             /\ Forall fits_buffer zs.
Proof.
  intros I H. break_state s. unfold uart_inv in I. fields.
  destruct I as (_ & _ & I3 & I4).
  destruct e; split_tests H; try discriminate H;
    take_state H; give_fitting_writes.
Qed.

Lemma usb_writes_fit_run (P : Platform) (es : list Event) :
  forall s s', uart_inv s -> run P es s = Some s' ->
  exists zs, usb_writes (trace s') = usb_writes (trace s) ++ zs
             /\ Forall fits_buffer zs.
Proof.
  induction es as [| e es IH]; intros s s' I H; cbn [run] in H.
  - apply some_eq in H. subst. exists []. rewrite app_nil_r.
    split; [reflexivity | constructor].
  - destruct (step P e s) as [s1 |] eqn:E; [| discriminate H].
    destruct (usb_writes_fit_step P e s s1 I E) as (z1 & W1 & F1).
    destruct (IH s1 s' (uart_inv_step P e s s1 I E) H) as (z2 & W2 & F2).
    exists (z1 ++ z2). split.
    + rewrite W2, W1, app_assoc. reflexivity.
    + apply Forall_app. split; assumption.
Qed.

(** X2: in every state reachable from the configured state, the recorded
    UART byte count and the length of every bulk IN transmission submitted
    so far lie between 0 and the capacity of a UART receive buffer. *)
Theorem X2_transmit_lengths_fit_buffer
    (P : Platform) (frame baudrate : Z) (s0 s : State)
    (Hinit : configured P frame baudrate = Some s0)
    (Hreach : reachable P s0 s) :
  fits_buffer (uartRxCount (g s))
  /\ Forall fits_buffer (usb_writes (trace s)).
Proof.
  destruct Hreach as [es Hrun].
  destruct (configured_uart_inv P frame baudrate s0 Hinit) as [I0 W0].
  split.
  - pose proof (uart_inv_run P es s0 s I0 Hrun) as (_ & _ & _ & I4).
    exact I4.
  - destruct (usb_writes_fit_run P es s0 s I0 Hrun) as (zs & W & F).
    rewrite W, W0. exact F.
Qed.

(** X3: with a nonzero baudrate in the line coding, an event the
    environment can deliver is always handled to completion, without
    fault, and the handler leaves the line coding and the UART frame and
    baudrate registers as they were; an event that is not enabled does not
    occur. *)
Theorem X3_enabled_events_are_handled
    (P : Platform) (e : Event) (s : State)
    (Hrate : dwDTERate (cdcLineCoding (g s)) <> 0) :
  (enabled e s = true ->
   exists s',
     step P e s = Some s'
     /\ cdcLineCoding (g s') = cdcLineCoding (g s)
     /\ uart_FRAME (hw s') = uart_FRAME (hw s)
     /\ uart_baudrate (hw s') = uart_baudrate (hw s))
  /\ (enabled e s = false -> step P e s = None).
Proof.
  break_state s. fields.
  assert (Er : (dwDTERate lc_ =? 0) = false) by (apply Z.eqb_neq; exact Hrate).
  split; intro Hen.
  - destruct (step P e
               {| g := {| cdcLineCoding := lc_; usbRxIndex := usbRxIndex_;
                          usbBytesReceived := usbBytesReceived_;
                          uartRxIndex := uartRxIndex_;
                          uartRxCount := uartRxCount_;
                          LastUsbTxCnt := LastUsbTxCnt_;
                          dmaRxCompleted := dmaRxCompleted_;
                          usbRxActive := usbRxActive_;
                          dmaTxActive := dmaTxActive_;
                          usbTxActive := usbTxActive_;
                          dmaRxActive := dmaRxActive_;
                          descriptorTx_xferCnt := xferCnt_;
                          descriptorTx_srcAddr := srcAddr_;
                          descriptorRx_dstAddr := dstAddr_ |};
                  hw := {| uart_FRAME := frame_; uart_baudrate := baud_;
                           timer := timer_; usb_out := usb_out_;
                           usb_in := usb_in_; dma_tx := dma_tx_;
                           dma_rx := dma_rx_; rx_remaining := remaining_ |};
                  trace := trace_ |}) as [s' |] eqn:H.
    + exists s'. split; [reflexivity |].
      destruct e; split_tests H; try discriminate H; take_state H;
        repeat split; reflexivity.
    + exfalso. unfold enabled in Hen. fields.
      destruct e; split_tests H; try discriminate H; try discriminate Hen;
        try congruence.
      match goal with
      | E : (_ <=? 0) = true |- _ => apply Z.leb_le in E
      end.
      apply Z.ltb_lt in Hen. lia.
  - unfold enabled in Hen. fields.
    destruct e; sym_exec;
      repeat match goal with
             | H : match ?l with _ => _ end = false |- _ =>
                 destruct l; try discriminate H
             end; try reflexivity.
    apply Z.ltb_ge in Hen.
    assert (E : (remaining_ <=? 0) = true) by (apply Z.leb_le; exact Hen).
    rewrite E. reflexivity.
Qed.

Lemma usb_reads_app (a b : list Effect) :
  usb_reads (a ++ b) = usb_reads a ++ usb_reads b.
Proof.
  induction a as [| e a IH]; [reflexivity |].
  destruct e as [ep ? ? | | | | | | | |]; cbn; try exact IH.
  destruct ep; cbn; try exact IH. rewrite IH. reflexivity.
Qed.

Lemma stalled_receive_step (P : Platform) (e : Event) (s s' : State) :
  usbRxActive (g s) = true -> usb_out (hw s) = [] ->
  step P e s = Some s' ->
  usbRxActive (g s') = true /\ usb_out (hw s') = []
  /\ usb_reads (trace s') = usb_reads (trace s)
  /\ usbRxIndex (g s') = usbRxIndex (g s).
Proof.
  intros Ha Ho H. break_state s. fields. subst.
  destruct e; split_tests H; try discriminate H; take_state H;
    contradict_negb;
    sym_exec; rewrite ?usb_reads_app; cbn [usb_reads app];
    rewrite ?app_nil_r; repeat split; reflexivity.
Qed.

Lemma stalled_receive_run (P : Platform) (es : list Event) :
  forall s s',
    usbRxActive (g s) = true -> usb_out (hw s) = [] ->
    run P es s = Some s' ->
    usb_out (hw s') = []
    /\ usb_reads (trace s') = usb_reads (trace s)
    /\ usbRxIndex (g s') = usbRxIndex (g s).
Proof.
  induction es as [| e es IH]; intros s s' Ha Ho H; cbn [run] in H.
  - apply some_eq in H. subst. auto.
  - destruct (step P e s) as [s1 |] eqn:E; [| discriminate H].
    destruct (stalled_receive_step P e s s1 Ha Ho E) as (Ha1 & Ho1 & R1 & X1).
    destruct (IH s1 s' Ha1 Ho1 H) as (Ho2 & R2 & X2).
    repeat split; congruence.
Qed.

(** X4: a USB receive that completes with an error status or with zero
    bytes is ignored: no driver variable changes and nothing is logged.
    In particular no new receive is armed, and none of the five handlers
    ever arms one afterwards: the USB-to-UART path stays stalled, its
    cursor where it was. *)
Theorem X4_failed_usb_receive_is_never_rearmed
    (P : Platform) (s : State) (b : Buffer)
    (status : USB_Status_TypeDef) (n : Z)
    (Harmed : usb_out (hw s) = [b])
    (Hact : usbRxActive (g s) = true)
    (Hfail : is_OK status && (n >? 0) = false) :
  exists s1,
    step P (EvUsbOut status n) s = Some s1
    /\ g s1 = g s
    /\ trace s1 = trace s
    /\ forall es s2,
         run P es s1 = Some s2 ->
         usb_out (hw s2) = []
         /\ usb_reads (trace s2) = usb_reads (trace s)
         /\ usbRxIndex (g s2) = usbRxIndex (g s).
Proof.
  break_state s. fields. subst.
  eexists. split; [| split; [| split]].
  - sym_exec. rewrite Hfail. sym_exec. reflexivity.
  - reflexivity.
  - reflexivity.
  - intros es s2 Hrun.
    pose proof (fun Ha Ho => stalled_receive_run P es _ s2 Ha Ho Hrun) as R.
    apply R; reflexivity.
Qed.

(** X5: a bulk IN transmission that completes with an error status is
    ignored: no driver variable changes and nothing is logged.  When the
    receive pipeline is paused at that moment (waiting for this very
    completion), nothing restarts it: whatever events follow, no
    UART-receive DMA runs, the timer stays off, no transmission is in
    flight and none is ever submitted again. *)
Theorem X5_failed_transmit_while_paused_stalls
    (P : Platform) (s : State) (w : Buffer * Z) (status : USB_Status_TypeDef)
    (Hpaused : dmaRxActive (g s) = false)
    (Hdma : dma_rx (hw s) = [])
    (Htimer : timer (hw s) = None)
    (Hin : usb_in (hw s) = [w])
    (Hfail : is_OK status = false) :
  exists s1,
    step P (EvUsbIn status) s = Some s1
    /\ g s1 = g s
    /\ trace s1 = trace s
    /\ forall es s2,
         run P es s1 = Some s2 ->
         dmaRxActive (g s2) = false
         /\ dma_rx (hw s2) = [] /\ timer (hw s2) = None /\ usb_in (hw s2) = []
         /\ usb_writes (trace s2) = usb_writes (trace s).
Proof.
  break_state s. fields. subst. destruct w as [wb wn].
  eexists. split; [| split; [| split]].
  - sym_exec. rewrite Hfail. sym_exec. reflexivity.
  - reflexivity.
  - reflexivity.
  - intros es s2 Hrun.
    pose proof (fun Ha Hd Ht Hi =>
                  dead_transmit_run P es _ s2 Ha Hd Ht Hi Hrun) as R.
    apply R; reflexivity.
Qed.


(** X7: when the buffer fills (in the slot the cursor designates) while a
    USB transmission is still in flight, DmaRxComplete only records the
    count: it flips the cursor, pauses the receive pipeline and stops the
    timer.  The successful completion of the transmission in flight then
    submits the recorded 127 bytes from the slot that was filled and
    restarts the UART-receive DMA and the timer; the DMA is restarted from
    the receive descriptor as it stands, which UsbDataTransmitted does not
    update: when it still points at the filled slot, the DMA writes the
    slot being transmitted. *)
Theorem X7_full_buffer_waits_for_transmit_completion
    (P : Platform) (s : State) (d : Buffer) (w : Buffer * Z)
    (Hrate : dwDTERate (cdcLineCoding (g s)) <> 0)
    (Hdma : dma_rx (hw s) = [d])
    (Hslot : d = uartRxBuffer (uartRxIndex (g s)))
    (Hlast : rx_remaining (hw s) = 1)
    (Hcompleted : dmaRxCompleted (g s) = true)
    (Hbusy : usbTxActive (g s) = true)
    (Hin : usb_in (hw s) = [w]) :
  exists s1 s2,
    step P EvUartByte s = Some s1
    /\ trace s1 = trace s ++ [E_USBTIMER_Stop]
    /\ uartRxCount (g s1) = CDC_USB_TX_BUF_SIZ
    /\ dmaRxActive (g s1) = false
    /\ dma_rx (hw s1) = []
    /\ timer (hw s1) = None
    /\ step P (EvUsbIn USB_STATUS_OK) s1 = Some s2
    /\ trace s2 = trace s1 ++
         [E_USBD_Write CDC_EP_DATA_IN d CDC_USB_TX_BUF_SIZ;
          E_LDMA_StartTransfer_Rx (descriptorRx_dstAddr (g s));
          E_USBTIMER_Start (SL_MAX 10 (50000 / dwDTERate (cdcLineCoding (g s))))]
    /\ usb_in (hw s2) = [(d, CDC_USB_TX_BUF_SIZ)]
    /\ dma_rx (hw s2) = [descriptorRx_dstAddr (g s)]
    /\ dmaRxActive (g s2) = true
    /\ uartRxCount (g s2) = 0
    /\ (descriptorRx_dstAddr (g s) = d -> ~ uart_fill_exclusive s2).
Proof.
  break_state s. fields. subst. destruct w as [wb wn].
  assert (Er : (dwDTERate lc_ =? 0) = false) by (apply Z.eqb_neq; exact Hrate).
  do 2 eexists. split.
  { sym_exec. change (1 <=? 0) with false. change (1 =? 1) with true.
    decide_tests. reflexivity. }
  split; [sym_exec; reflexivity |].
  split; [reflexivity |]. split; [reflexivity |].
  split; [reflexivity |]. split; [reflexivity |].
  split.
  { decide_tests. reflexivity. }
  sym_exec. rewrite lxor_1_1, <- !app_assoc. cbn [app].
  repeat split; try reflexivity.
  intros Hd Hex. subst dstAddr_.
  apply (Hex (uartRxBuffer uartRxIndex_)); sym_exec; cbn; auto.
Qed.

Lemma supported_frames (P : Platform) (lc : cdcLineCoding_TypeDef) :
  supported lc = true ->
  exists d p b,
    frame_databits P (bDataBits lc) = Some d
    /\ frame_parity P (bParityType lc) = Some p
    /\ frame_stopbits P (bCharFormat lc) = Some b.
Proof.
  unfold supported, frame_databits, frame_parity, frame_stopbits.
  intro H.
  repeat match goal with
         | |- context [?x =? ?y] =>
             let E := fresh "E" in
             destruct (x =? y) eqn:E; cbn [orb andb] in H;
             try discriminate H
         end;
    do 3 eexists; repeat split; reflexivity.
Qed.

Lemma unsupported_frames (P : Platform) (lc : cdcLineCoding_TypeDef) :
  supported lc = false ->
  frame_databits P (bDataBits lc) = None
  \/ frame_parity P (bParityType lc) = None
  \/ frame_stopbits P (bCharFormat lc) = None.
Proof.
  unfold supported, frame_databits, frame_parity, frame_stopbits.
  intro H.
  repeat match goal with
         | |- context [?x =? ?y] =>
             let E := fresh "E" in
             destruct (x =? y) eqn:E; cbn [orb andb] in H;
             try discriminate H
         end;
    auto.
Qed.

(** X8: LineCodingReceived accepts exactly the transfers that succeeded,
    delivered 7 bytes and left a supported line coding in the variable.
    It then writes the FRAME register with the OR of the three field
    codes and sets the baudrate to dwDTERate, unchecked; in every other
    case it returns USB_STATUS_REQ_ERR and changes nothing at all. *)
Theorem X8_line_coding_accepted_iff_supported
    (P : Platform) (s : State) (status : USB_Status_TypeDef)
    (xferred remaining : Z) :
  let lc := cdcLineCoding (g s) in
  (is_OK status && (xferred =? 7) && supported lc = true ->
   exists d p b,
     frame_databits P (bDataBits lc) = Some d
     /\ frame_parity P (bParityType lc) = Some p
     /\ frame_stopbits P (bCharFormat lc) = Some b
     /\ LineCodingReceived P status xferred remaining s =
          Ok USB_STATUS_OK
             {| g := g s;
                hw := set_uart_baudrate (dwDTERate lc)
                        (set_uart_FRAME (Z.lor (Z.lor (Z.lor 0 d) p) b) (hw s));
                trace := trace s ++
                           [E_UART_FRAME (Z.lor (Z.lor (Z.lor 0 d) p) b);
                            E_USART_BaudrateAsyncSet (dwDTERate lc)] |})
  /\ (is_OK status && (xferred =? 7) && supported lc = false ->
      LineCodingReceived P status xferred remaining s = Ok USB_STATUS_REQ_ERR s).
Proof.
  intro lc. subst lc. break_state s. fields.
  unfold LineCodingReceived, write_FRAME, USART_BaudrateAsyncSet.
  split; intro H.
  - apply andb_prop in H. destruct H as [H1 H2].
    destruct (supported_frames P lc_ H2) as (d & p & b & Ed & Ep & Eb).
    exists d, p, b. rewrite H1. sym_exec. rewrite Ed, Ep, Eb. sym_exec.
    rewrite <- app_assoc. repeat split; reflexivity.
  - destruct (is_OK status && (xferred =? 7)) eqn:E1; [| reflexivity].
    cbn [andb] in H.
    sym_exec.
    destruct (unsupported_frames P lc_ H) as [E | [E | E]].
    + rewrite E. reflexivity.
    + destruct (frame_databits P (bDataBits lc_)); [| reflexivity].
      rewrite E. reflexivity.
    + destruct (frame_databits P (bDataBits lc_)); [| reflexivity].
      destruct (frame_parity P (bParityType lc_)); [| reflexivity].
      rewrite E. reflexivity.
Qed.

Lemma line_coding_received_keeps_variables
    (P : Platform) (s : State) (status : USB_Status_TypeDef) (x r : Z) :
  exists a s', LineCodingReceived P status x r s = Ok a s' /\ g s' = g s.
Proof.
  break_state s.
  unfold LineCodingReceived, write_FRAME, USART_BaudrateAsyncSet.
  destruct (is_OK status && (x =? 7)); [| do 2 eexists; split; reflexivity].
  sym_exec.
  destruct (frame_databits P (bDataBits lc_));
    [| do 2 eexists; split; reflexivity].
  destruct (frame_parity P (bParityType lc_));
    [| do 2 eexists; split; reflexivity].
  destruct (frame_stopbits P (bCharFormat lc_));
    do 2 eexists; split; reflexivity.
Qed.

Lemma byte_low (a q : Z) : 0 <= a < 256 -> (a + 256 * q) mod 256 = a.
Proof.
  intro H. rewrite (Z.mul_comm 256 q), Z.mod_add by lia.
  apply Z.mod_small. exact H.
Qed.

Lemma byte_high (a q : Z) : 0 <= a < 256 -> (a + 256 * q) / 256 = q.
Proof.
  intro H. rewrite (Z.mul_comm 256 q), Z.div_add by lia.
  rewrite Z.div_small by exact H. lia.
Qed.

Lemma le32_of_bytes (b0 b1 b2 b3 : Z) :
  0 <= b0 < 256 -> 0 <= b1 < 256 -> 0 <= b2 < 256 -> 0 <= b3 < 256 ->
  le32 (b0 + 256 * b1 + 65536 * b2 + 16777216 * b3) = [b0; b1; b2; b3].
Proof.
  intros H0 H1 H2 H3. unfold le32.
  replace (b0 + 256 * b1 + 65536 * b2 + 16777216 * b3)
    with (b0 + 256 * (b1 + 256 * (b2 + 256 * b3))) by lia.
  change 65536 with (256 * 256). change 16777216 with (256 * 256 * 256).
  rewrite <- !Z.div_div by lia.
  rewrite (byte_low b0) by exact H0.
  rewrite (byte_high b0) by exact H0.
  rewrite (byte_low b1) by exact H1.
  rewrite (byte_high b1) by exact H1.
  rewrite (byte_low b2) by exact H2.
  rewrite (byte_high b2) by exact H2.
  rewrite (Z.mod_small b3) by exact H3.
  reflexivity.
Qed.

Lemma u8_byte (b : Z) : 0 <= b < 256 -> u8 b = b.
Proof. intro H. unfold u8. apply Z.mod_small. exact H. Qed.

(** X9: the line-coding variable is the buffer of both control transfers,
    so a GET_LINE_CODING request is accepted and answers with exactly the
    7 bytes of the last SET_LINE_CODING data stage, whether that request
    was accepted or rejected. *)
Theorem X9_get_line_coding_returns_last_payload
    (P : Platform) (s : State) (payload : list Z)
    (Hlen : length payload = 7%nat)
    (Hbytes : all_bytes payload) :
  exists r s1 s2,
    SET_LINE_CODING P payload s = Ok r s1
    /\ get_line_coding_reply s1 = payload
    /\ CDC_SetupCmd P (get_line_coding_setup P) s1 = Ok USB_STATUS_OK s2
    /\ trace s2 = trace s1 ++ [E_USBD_Write EP0 lineCodingBuffer 7]
    /\ g s2 = g s1.
Proof.
  destruct (length7 payload Hlen) as (b0 & b1 & b2 & b3 & b4 & b5 & b6 & ->).
  unfold all_bytes in Hbytes.
  repeat match goal with
         | H : Forall _ (_ :: _) |- _ => inversion H; clear H; subst
         end.
  unfold SET_LINE_CODING, bind at 1.
  rewrite setup_accepts_set_line_coding. cbn [is_OK].
  unfold ep0_data_stage. unfold bind at 1. unfold rd at 1.
  unfold bind at 1. unfold wr at 1.
  match goal with
  | |- context [LineCodingReceived P ?st ?x ?r ?s0] =>
      destruct (line_coding_received_keeps_variables P s0 st x r)
        as (a & s1 & E & Hg)
  end.
  exists a, s1. eexists. split; [exact E |].
  split.
  - unfold get_line_coding_reply. rewrite Hg.
    break_state s. destruct lc_ as [rate0 fmt0 parity0 bits0 dummy0].
    cbn [g cdcLineCoding set_cdcLineCoding].
    unfold overwrite_lineCoding.
    cbn [length Nat.min firstn skipn map app lineCoding_bytes le32
         lineCoding_of_bytes nth dwDTERate bCharFormat bParityType
         bDataBits dummy].
    rewrite !u8_byte by assumption.
    match goal with
    | H0 : 0 <= b0 < 256, H1 : 0 <= b1 < 256,
      H2 : 0 <= b2 < 256, H3 : 0 <= b3 < 256 |- _ =>
        pose proof (le32_of_bytes b0 b1 b2 b3 H0 H1 H2 H3) as L
    end.
    apply (f_equal (fun l => l ++ [b4; b5; b6])) in L.
    exact L.
  - unfold CDC_SetupCmd, get_line_coding_setup.
    cbn [Type_ Recipient bRequest wValue wIndex wLength Direction
         is_CLASS is_INTERFACE is_DIR_IN andb].
    rewrite !Z.eqb_refl. cbn [andb]. sym_exec.
    split; [reflexivity |]. split; reflexivity.
Qed.

(** X10: CDC_SetupCmd never touches the bridge: whatever the setup packet,
    the driver variables and the transfer state are unchanged, the answer
    is USB_STATUS_OK or USB_STATUS_REQ_UNHANDLED and never an error, and
    at most one 7-byte control transfer on the line-coding variable is
    submitted.  A request left unhandled changes nothing at all, and every
    request that is not a class request to an interface is left
    unhandled. *)
Theorem X10_setup_command_never_touches_bridge
    (P : Platform) (setup : USB_Setup_TypeDef) (s : State) :
  exists r s',
    CDC_SetupCmd P setup s = Ok r s'
    /\ g s' = g s
    /\ hw s' = hw s
    /\ (r = USB_STATUS_OK \/ r = USB_STATUS_REQ_UNHANDLED)
    /\ (r = USB_STATUS_REQ_UNHANDLED -> s' = s)
    /\ (is_CLASS (Type_ setup) && is_INTERFACE (Recipient setup) = false ->
        r = USB_STATUS_REQ_UNHANDLED)
    /\ (trace s' = trace s
        \/ trace s' = trace s ++ [E_USBD_Write EP0 lineCodingBuffer 7]
        \/ trace s' = trace s ++ [E_USBD_Read EP0 lineCodingBuffer 7]).
Proof.
  break_state s.
  destruct setup as [rcp ty dir req val idx len].
  unfold CDC_SetupCmd.
  cbn [Type_ Recipient bRequest wValue wIndex wLength Direction].
  destruct (is_CLASS ty && is_INTERFACE rcp) eqn:Ec.
  - destruct req.
    + destruct ((val =? 0) && (idx =? CDC_CTRL_INTERFACE_NO P)
                && (len =? 7) && is_DIR_IN dir);
        sym_exec; do 2 eexists; (split; [reflexivity |]);
        repeat split; auto; discriminate.
    + destruct ((val =? 0) && (idx =? CDC_CTRL_INTERFACE_NO P)
                && (len =? 7) && negb (is_DIR_IN dir));
        sym_exec; do 2 eexists; (split; [reflexivity |]);
        repeat split; auto; discriminate.
    + destruct ((idx =? CDC_CTRL_INTERFACE_NO P) && (len =? 0));
        sym_exec; do 2 eexists; (split; [reflexivity |]);
        repeat split; auto; discriminate.
    + sym_exec. do 2 eexists. split; [reflexivity |].
      repeat split; auto.
  - sym_exec. do 2 eexists. split; [reflexivity |].
    repeat split; auto.
Qed.

(** ** Ping-pong order of the slots *)

Lemma tx_sources_app (a b : list Effect) :
  tx_sources (a ++ b) = tx_sources a ++ tx_sources b.
Proof.
  induction a as [| e a IH]; [reflexivity |].
  destruct e; cbn; rewrite ?IH; reflexivity.
Qed.

Lemma usb_write_sources_app (a b : list Effect) :
  usb_write_sources (a ++ b) = usb_write_sources a ++ usb_write_sources b.
Proof.
  induction a as [| e a IH]; [reflexivity |].
  destruct e as [| ep ? ? | | | | | | |]; cbn; try exact IH.
  destruct ep; cbn; try exact IH. rewrite IH. reflexivity.
Qed.

Lemma last_slot_snoc (l : list Buffer) (x : Buffer) :
  last_slot (l ++ [x]) = Some x.
Proof. unfold last_slot. rewrite rev_app_distr. reflexivity. Qed.

Lemma last_slot_cons (a b : Buffer) (l : list Buffer) :
  last_slot (a :: b :: l) = last_slot (b :: l).
Proof.
  unfold last_slot. cbn [rev].
  destruct (rev l ++ [b]) as [| y r] eqn:E.
  - destruct (rev l); discriminate E.
  - reflexivity.
Qed.

Lemma alternating_snoc (l : list Buffer) (x : Buffer) :
  alternating l ->
  (forall b, last_slot l = Some b -> b <> x) ->
  alternating (l ++ [x]).
Proof.
  induction l as [| a l IH]; intros A L.
  - exact I.
  - destruct l as [| b l].
    + cbn. split; [| exact I]. apply L. reflexivity.
    + destruct A as [Hab A]. split; [exact Hab |].
      apply IH; [exact A |].
      intros c Hc. apply L. rewrite last_slot_cons. exact Hc.
Qed.

Lemma usbRxBuffer_flip_neq (i : Z) :
  usbRxBuffer (Z.lxor i 1) <> usbRxBuffer i.
Proof. intro H. inversion H as [E]. exact (lxor_1_neq i E). Qed.

Lemma uartRxBuffer_flip_neq (i : Z) :
  uartRxBuffer (Z.lxor i 1) <> uartRxBuffer i.
Proof. intro H. inversion H as [E]. exact (lxor_1_neq i E). Qed.

Ltac keep_order K1 K2 := split; [exact K1 | exact K2].

Ltac extend_order K1 K2 neq :=
  split;
  [ apply alternating_snoc;
    [ exact K1
    | let b := fresh "b" in
      let Hb := fresh "Hb" in
      intros b Hb; rewrite (K2 b Hb);
      first [ apply neq
            | let E := fresh "E" in
              intro E; symmetry in E; revert E; apply neq ] ]
  | let b := fresh "b" in
    let Hb := fresh "Hb" in
    intros b Hb; rewrite last_slot_snoc in Hb;
    apply some_eq in Hb; subst b; reflexivity ].

Lemma drain_order_step (P : Platform) (e : Event) (s s' : State) :
  handoff_inv s -> drain_order_inv s -> step P e s = Some s' ->
  drain_order_inv s'.
Proof.
  intros I K H. break_state s.
  unfold handoff_inv in I. unfold drain_order_inv, last_drained in K.
  fields. destruct I as (_ & _ & _ & I4 & _ & _). destruct K as [K1 K2].
  destruct usbRxActive_;
    [ clear I4 | specialize (I4 eq_refl); subst usb_out_ ];
    cbv iota in K2.
  all: destruct e; split_tests H; try discriminate H; take_state H;
    contradict_negb;
    unfold drain_order_inv, last_drained; sym_exec;
    rewrite ?tx_sources_app; cbn [tx_sources app]; rewrite ?app_nil_r;
    rewrite ?lxor_1_1.
  all: first [ keep_order K1 K2 | extend_order K1 K2 usbRxBuffer_flip_neq ].
Qed.

Lemma transmit_order_step (P : Platform) (e : Event) (s s' : State) :
  uart_inv s -> transmit_order_inv s -> step P e s = Some s' ->
  transmit_order_inv s'.
Proof.
  intros I K H. break_state s.
  unfold uart_inv in I. unfold transmit_order_inv, last_transmitted in K.
  fields. destruct I as (_ & I2 & _ & _). destruct K as [K1 K2].
  destruct dmaRxActive_;
    [ clear I2
    | destruct (I2 eq_refl) as (Hd & Ht & _); subst dma_rx_ timer_ ];
    cbv iota in K2.
  all: destruct e; split_tests H; try discriminate H; take_state H;
    contradict_negb;
    unfold transmit_order_inv, last_transmitted; sym_exec;
    rewrite ?usb_write_sources_app; cbn [usb_write_sources app];
    rewrite ?app_nil_r; rewrite ?lxor_1_1.
  all: first [ keep_order K1 K2 | extend_order K1 K2 uartRxBuffer_flip_neq ].
Qed.

Lemma slot_order_run (P : Platform) (es : list Event) :
  forall s s',
    handoff_inv s -> uart_inv s ->
    drain_order_inv s -> transmit_order_inv s ->
    run P es s = Some s' ->
    drain_order_inv s' /\ transmit_order_inv s'.
Proof.
  induction es as [| e es IH]; intros s s' I U D T H; cbn [run] in H.
  - apply some_eq in H. subst. split; assumption.
  - destruct (step P e s) as [s1 |] eqn:E; [| discriminate H].
    apply (IH s1 s').
    + exact (handoff_inv_step P e s s1 I E).
    + exact (uart_inv_step P e s s1 U E).
    + exact (drain_order_step P e s s1 I D E).
    + exact (transmit_order_step P e s s1 U T E).
    + exact H.
Qed.

Lemma configured_slot_order (P : Platform) (frame baudrate : Z) (s0 : State) :
  configured P frame baudrate = Some s0 ->
  handoff_inv s0 /\ drain_order_inv s0 /\ transmit_order_inv s0.
Proof.
  intro H.
  destruct (configured_state P frame baudrate) as (s0' & E & I & _).
  rewrite E in H. apply some_eq in H. subst s0'.
  split; [exact I |].
  sym_exec_in E. cbn [is_CONFIGURED] in E. sym_exec_in E.
  change (115200 =? 0) with false in E. sym_exec_in E.
  apply some_eq in E. subst s0.
  unfold drain_order_inv, transmit_order_inv, last_slot.
  cbn [trace tx_sources usb_write_sources app rev hd_error alternating].
  repeat split; intros; discriminate.
Qed.

(** X11: in every run from the configured state the UART-transmit DMA
    transfers take their source slots in strict alternation: no slot of
    the USB receive buffers is drained twice in a row, so packets leave in
    the order they arrived. *)
Theorem X11_uart_transmit_slots_alternate
    (P : Platform) (frame baudrate : Z) (s0 s : State)
    (Hinit : configured P frame baudrate = Some s0)
    (Hreach : reachable P s0 s) :
  alternating (tx_sources (trace s))
  /\ (forall b, last_slot (tx_sources (trace s)) = Some b -> b = last_drained s).
Proof.
  destruct Hreach as [es Hrun].
  destruct (configured_slot_order P frame baudrate s0 Hinit) as (I & D & T).
  destruct (configured_uart_inv P frame baudrate s0 Hinit) as [U _].
  exact (proj1 (slot_order_run P es s0 s I U D T Hrun)).
Qed.

(** X12: likewise the bulk IN transmissions take their source slots of the
    UART receive buffers in strict alternation, whether they are submitted
    by DmaRxComplete or, after a pause, by UsbDataTransmitted. *)
Theorem X12_usb_transmit_slots_alternate
    (P : Platform) (frame baudrate : Z) (s0 s : State)
    (Hinit : configured P frame baudrate = Some s0)
    (Hreach : reachable P s0 s) :
  alternating (usb_write_sources (trace s))
  /\ (forall b, last_slot (usb_write_sources (trace s)) = Some b ->
                b = last_transmitted s).
Proof.
  destruct Hreach as [es Hrun].
  destruct (configured_slot_order P frame baudrate s0 Hinit) as (I & D & T).
  destruct (configured_uart_inv P frame baudrate s0 Hinit) as [U _].
  exact (proj2 (slot_order_run P es s0 s I U D T Hrun)).
Qed.

(** ** Re-configuration and independence of the directions *)

Lemma uart_bytes_partial (P : Platform) (n : nat) :
  forall (s : State) (d : Buffer),
    dma_rx (hw s) = [d] ->
    Z.of_nat n < rx_remaining (hw s) ->
    run P (uart_bytes n) s =
      Some {| g := g s;
              hw := set_rx_remaining (rx_remaining (hw s) - Z.of_nat n) (hw s);
              trace := trace s |}.
Proof.
  induction n as [| n IH]; intros s d Hd Hr.
  - break_state s. cbn [uart_bytes repeat run Z.of_nat]. sym_exec.
    rewrite Z.sub_0_r. reflexivity.
  - cbn [uart_bytes repeat run]. fold (uart_bytes n).
    assert (E1 : (rx_remaining (hw s) <=? 0) = false)
      by (apply Z.leb_gt; lia).
    assert (E2 : (rx_remaining (hw s) =? 1) = false)
      by (apply Z.eqb_neq; lia).
    assert (Hstep : step P EvUartByte s =
                    Some {| g := g s;
                            hw := set_rx_remaining (rx_remaining (hw s) - 1) (hw s);
                            trace := trace s |}).
    { break_state s. fields. subst. sym_exec. rewrite E1, E2. reflexivity. }
    rewrite Hstep.
    rewrite (IH _ d).
    + break_state s. sym_exec. do 3 f_equal. lia.
    + break_state s. fields. subst. reflexivity.
    + break_state s. sym_exec. fields. lia.
Qed.

(** X13: the change to the configured state resets both cursors, the
    counts and the flags and arms the first USB receive into slot 0, but it
    restarts the UART-receive DMA from the receive descriptor as it
    stands.  The first full buffer is therefore received into the slot the
    descriptor last pointed at, and transmitted, all 127 bytes, from
    slot 0. *)
Theorem X13_reconfiguration_keeps_receive_destination
    (P : Platform) (s : State) (oldState : USBD_State_TypeDef)
    (Hrate : dwDTERate (cdcLineCoding (g s)) <> 0)
    (Hstopped : dma_rx (hw s) = []) :
  exists s1 s2,
    CDC_StateChangeEvent P oldState USBD_STATE_CONFIGURED s = Ok tt s1
    /\ usbRxIndex (g s1) = 0 /\ uartRxIndex (g s1) = 0
    /\ uartRxCount (g s1) = 0 /\ LastUsbTxCnt (g s1) = 0
    /\ flags s1 = [true; false; false; true; true]
    /\ trace s1 = trace s ++
         [E_USBD_Read CDC_EP_DATA_OUT (usbRxBuffer 0) (CDC_USB_RX_BUF_SIZ P);
          E_LDMA_StartTransfer_Rx (descriptorRx_dstAddr (g s));
          E_USBTIMER_Start (SL_MAX 10 (50000 / dwDTERate (cdcLineCoding (g s))))]
    /\ dma_rx (hw s1) = [descriptorRx_dstAddr (g s)]
    /\ run P (uart_bytes 127) s1 = Some s2
    /\ trace s2 = trace s1 ++
         [E_USBD_Write CDC_EP_DATA_IN (uartRxBuffer 0) CDC_USB_TX_BUF_SIZ;
          E_LDMA_StartTransfer_Rx (uartRxBuffer 1);
          E_USBTIMER_Start (SL_MAX 10 (50000 / dwDTERate (cdcLineCoding (g s))))].
Proof.
  break_state s. fields. subst.
  assert (Er : (dwDTERate lc_ =? 0) = false) by (apply Z.eqb_neq; exact Hrate).
  do 2 eexists. split.
  { sym_exec. cbn [is_CONFIGURED]. decide_tests. reflexivity. }
  split; [reflexivity |]. split; [reflexivity |].
  split; [reflexivity |]. split; [reflexivity |].
  split; [reflexivity |].
  split; [sym_exec; rewrite <- !app_assoc; reflexivity |].
  split; [reflexivity |].
  change (uart_bytes 127) with (uart_bytes 126 ++ [EvUartByte]).
  match goal with
  | |- run P _ ?s1 = _ /\ _ =>
      pose proof (uart_bytes_partial P 126 s1 dstAddr_ eq_refl) as Hpart
  end.
  sym_exec_in Hpart.
  assert (Hlt : Z.of_nat 126 < CDC_USB_TX_BUF_SIZ) by reflexivity.
  specialize (Hpart Hlt).
  change (CDC_USB_TX_BUF_SIZ - Z.of_nat 126) with 1 in Hpart.
  assert (Happ : forall a b s0,
             run P (a ++ b) s0
             = match run P a s0 with Some s' => run P b s' | None => None end).
  { induction a as [| e a IH]; intros b s0; cbn [app run]; [reflexivity |].
    destruct (step P e s0); [apply IH | reflexivity]. }
  rewrite Happ. sym_exec. rewrite Hpart. cbn [run].
  sym_exec. change (1 <=? 0) with false. change (1 =? 1) with true.
  decide_tests.
  split; [reflexivity |].
  sym_exec. change (Z.lxor 0 1) with 1. change (Z.lxor 1 1) with 0.
  rewrite <- !app_assoc. reflexivity.
Qed.

(** X14: the two directions do not interfere.  An event of the USB-to-UART
    direction leaves every variable, descriptor field, timer and transfer
    of the UART-to-USB hand-off as it was; with distinct DMA channel
    numbers an event of the UART-to-USB direction leaves every variable,
    both fields of the transmit descriptor and every transfer of the
    USB-to-UART hand-off as they were. *)
Theorem X14_directions_do_not_interfere
    (P : Platform) (e : Event) (s s' : State)
    (Hstep : step P e s = Some s') :
  (is_usb_to_uart e = true -> uart_to_usb_view s' = uart_to_usb_view s)
  /\ (distinct_channels P -> is_uart_to_usb e = true ->
      usb_to_uart_full_view s' = usb_to_uart_full_view s).
Proof.
  split.
  - intro He. break_state s.
    destruct e; try discriminate He; clear He;
      split_tests Hstep; try discriminate Hstep; take_state Hstep;
      reflexivity.
  - intros HP He. break_state s. unfold distinct_channels in HP.
    destruct e; try discriminate He; clear He;
      split_tests Hstep; try discriminate Hstep;
      try (exfalso; apply HP; apply Z.eqb_eq; assumption);
      take_state Hstep; reflexivity.
Qed.

(** ** No packet lost, duplicated or reordered *)

Lemma tx_counts_app (a b : list Effect) :
  tx_counts (a ++ b) = tx_counts a ++ tx_counts b.
Proof.
  induction a as [| e a IH]; [reflexivity |].
  destruct e; cbn; rewrite ?IH; reflexivity.
Qed.

Lemma packet_count_immediate (n : Z) :
  0 < n <= 2 ^ 11 -> xferCnt_field (u32 (n - 1)) = n - 1.
Proof.
  intro H. rewrite u32_small by lia. apply xferCnt_field_small. lia.
Qed.

Lemma packet_count_deferred (n : Z) :
  0 < n <= 2 ^ 11 -> xferCnt_field (s32 (s32 n - 1)) = n - 1.
Proof.
  intro H. rewrite (s32_small n) by lia. rewrite s32_small by lia.
  apply xferCnt_field_small. lia.
Qed.

Lemma packet_order_step (P : Platform) (e : Event) (s s' : State) :
  CDC_USB_RX_BUF_SIZ P <= 2 ^ 11 ->
  packet_fits P e ->
  handoff_inv s ->
  step P e s = Some s' ->
  tx_counts (trace s') ++ pending_count s'
  = tx_counts (trace s) ++ pending_count s
    ++ map (fun n => n - 1) (received_packets [e]).
Proof.
  intros Hmax Hfit I H. break_state s.
  unfold handoff_inv in I. fields. destruct I as (_ & _ & _ & I4 & _ & _).
  unfold pending_count. fields.
  destruct usbRxActive_;
    [ clear I4 | specialize (I4 eq_refl); subst usb_out_ ].
  all: destruct e; cbn [packet_fits] in Hfit;
    split_tests H; try discriminate H; try congruence; take_state H;
    contradict_negb;
    cbn [received_packets];
    try match goal with
        | E : is_OK _ && _ = _ |- _ => rewrite E
        end;
    cbn [map];
    sym_exec; rewrite ?tx_counts_app; cbn [tx_counts app];
    rewrite ?app_nil_r, <- ?app_assoc; cbn [app].
  all: try reflexivity.
  all: match goal with
       | E : is_OK _ && _ = true |- _ =>
           apply andb_prop in E; destruct E as [_ Epos];
           apply Z.gtb_lt in Epos
       end;
    rewrite ?packet_count_immediate, ?packet_count_deferred
      by (unfold CDC_USB_RX_BUF_SIZ, CDC_BULK_EP_SIZE in *; lia);
    reflexivity.
Qed.

Lemma received_packets_cons (e : Event) (es : list Event) :
  received_packets (e :: es) = received_packets [e] ++ received_packets es.
Proof.
  destruct e; cbn [received_packets]; try reflexivity.
  destruct (is_OK status && (xferred >? 0)); reflexivity.
Qed.

Lemma packet_order_run (P : Platform) (es : list Event) :
  CDC_USB_RX_BUF_SIZ P <= 2 ^ 11 ->
  Forall (packet_fits P) es ->
  forall s s',
    handoff_inv s ->
    run P es s = Some s' ->
    tx_counts (trace s') ++ pending_count s'
    = tx_counts (trace s) ++ pending_count s
      ++ map (fun n => n - 1) (received_packets es).
Proof.
  intros Hmax Hfit. induction Hfit as [| e es He Hes IH]; intros s s' I H.
  - cbn [run] in H. apply some_eq in H. subst.
    cbn [received_packets map]. rewrite app_nil_r. reflexivity.
  - cbn [run] in H.
    destruct (step P e s) as [s1 |] eqn:E; [| discriminate H].
    rewrite (IH s1 s' (handoff_inv_step P e s s1 I E) H).
    rewrite app_assoc.
    rewrite (packet_order_step P e s s1 Hmax He I E).
    rewrite (received_packets_cons e es), map_app, <- !app_assoc.
    reflexivity.
Qed.

(** X15: no packet is lost, duplicated or reordered on its way to the
    UART.  After any run from the configured state in which no packet
    exceeds the endpoint size, the count fields of the UART-transmit DMA
    transfers started so far, followed by the count of the packet still
    waiting if there is one, are exactly the sizes minus one of the
    packets received with success, in the order they arrived. *)
Theorem X15_every_packet_is_drained_once_in_order
    (P : Platform) (frame baudrate : Z) (s0 s : State) (es : list Event)
    (Hmax : CDC_USB_RX_BUF_SIZ P <= 2 ^ 11)
    (Hfit : Forall (packet_fits P) es)
    (Hinit : configured P frame baudrate = Some s0)
    (Hrun : run P es s0 = Some s) :
  tx_counts (trace s) ++ pending_count s
  = map (fun n => n - 1) (received_packets es).
Proof.
  destruct (configured_state P frame baudrate) as (s0' & E & I & _).
  rewrite E in Hinit. apply some_eq in Hinit. subst s0'.
  rewrite (packet_order_run P es Hmax Hfit s0 s I Hrun).
  sym_exec_in E. cbn [is_CONFIGURED] in E. sym_exec_in E.
  change (115200 =? 0) with false in E. sym_exec_in E.
  apply some_eq in E. subst s0.
  reflexivity.
Qed.

(** ** Every UART byte is accounted for *)

Lemma total_app (a b : list Z) : total (a ++ b) = total a + total b.
Proof.
  unfold total. induction a as [| x a IH]; cbn [app fold_right]; lia.
Qed.

Lemma byte_count_step (P : Platform) (e : Event) (s s' : State) :
  uart_inv s ->
  step P e s = Some s' ->
  total (usb_writes (trace s')) + buffered s'
  = total (usb_writes (trace s)) + buffered s + uart_byte_count [e].
Proof.
  intros I H. break_state s. unfold uart_inv in I. fields.
  destruct I as (I1 & I2 & I3 & I4).
  unfold buffered. fields.
  destruct dmaRxActive_;
    [ destruct (I1 eq_refl) as ((d & Hd) & Ht & Hc & Hr); clear I1 I2
    | destruct (I2 eq_refl) as (Hd & Ht & Hu); clear I1 I2 ];
    subst.
  all: destruct e; split_tests H; try discriminate H; try contradiction;
    take_state H; contradict_negb;
    cbn [uart_byte_count]; sym_exec;
    rewrite ?usb_writes_app; cbn [usb_writes app];
    rewrite ?app_nil_r, ?total_app;
    rewrite ?received_small by lia;
    unfold total; cbn [fold_right];
    unfold CDC_USB_TX_BUF_SIZ in *.
  all: try lia.
  all: match goal with
       | E : (_ =? 1) = true |- _ => apply Z.eqb_eq in E; lia
       end.
Qed.

Lemma uart_byte_count_cons (e : Event) (es : list Event) :
  uart_byte_count (e :: es) = uart_byte_count [e] + uart_byte_count es.
Proof. destruct e; cbn [uart_byte_count]; lia. Qed.

Lemma byte_count_run (P : Platform) (es : list Event) :
  forall s s',
    uart_inv s ->
    run P es s = Some s' ->
    total (usb_writes (trace s')) + buffered s'
    = total (usb_writes (trace s)) + buffered s + uart_byte_count es.
Proof.
  induction es as [| e es IH]; intros s s' I H; cbn [run] in H.
  - apply some_eq in H. subst. cbn [uart_byte_count]. lia.
  - destruct (step P e s) as [s1 |] eqn:E; [| discriminate H].
    rewrite (IH s1 s' (uart_inv_step P e s s1 I E) H).
    rewrite (byte_count_step P e s s1 I E).
    rewrite (uart_byte_count_cons e es). lia.
Qed.

(** X16: the lengths add up.  After any run from the configured state,
    the lengths of all bulk IN transmissions submitted, plus the count of
    the buffer being filled or, while the pipeline is paused, the count
    recorded for the next transmission, equal the number of bytes the
    UART-receive DMA took in during the run.  This is about lengths only:
    it says nothing of the slot a transmission reads, and a byte arriving
    while no receive transfer is running is not an event of a run. *)
Theorem X16_transmitted_lengths_add_up_to_bytes_taken_in
    (P : Platform) (frame baudrate : Z) (s0 s : State) (es : list Event)
    (Hinit : configured P frame baudrate = Some s0)
    (Hrun : run P es s0 = Some s) :
  total (usb_writes (trace s)) + buffered s = uart_byte_count es.
Proof.
  destruct (configured_uart_inv P frame baudrate s0 Hinit) as [I0 W0].
  rewrite (byte_count_run P es s0 s I0 Hrun), W0.
  sym_exec_in Hinit. cbn [is_CONFIGURED] in Hinit. sym_exec_in Hinit.
  change (115200 =? 0) with false in Hinit. sym_exec_in Hinit.
  apply some_eq in Hinit. subst s0.
  reflexivity.
Qed.

(** ** Concrete runs for the properties beyond the claims *)

Lemma X1_witness :
  timer (hw (after (uart_bytes 127 ++ uart_bytes 127))) <> None
  <-> dmaRxActive (g (after (uart_bytes 127 ++ uart_bytes 127))) = true.
Proof.
  assert (Hinit : configured gg11 4101 115200 = Some configured_gg11) by by_run.
  assert (Hrun : run gg11 (uart_bytes 127 ++ uart_bytes 127) configured_gg11
                 = Some (after (uart_bytes 127 ++ uart_bytes 127))) by by_run.
  exact (proj1 (X1_timer_armed_iff_receive_active gg11 4101 115200
                  configured_gg11 _ Hinit (ex_intro _ _ Hrun))).
Defined.

Lemma X2_witness :
  Forall fits_buffer
    (usb_writes (trace (after (uart_bytes 5 ++ [EvTimer; EvTimer])))).
Proof.
  assert (Hinit : configured gg11 4101 115200 = Some configured_gg11) by by_run.
  assert (Hrun : run gg11 (uart_bytes 5 ++ [EvTimer; EvTimer]) configured_gg11
                 = Some (after (uart_bytes 5 ++ [EvTimer; EvTimer]))) by by_run.
  exact (proj2 (X2_transmit_lengths_fit_buffer gg11 4101 115200
                  configured_gg11 _ Hinit (ex_intro _ _ Hrun))).
Defined.

Lemma X3_witness :
  exists s', step gg11 EvTimer configured_gg11 = Some s'
             /\ cdcLineCoding (g s') = cdcLineCoding (g configured_gg11).
Proof.
  assert (Hrate : dwDTERate (cdcLineCoding (g configured_gg11)) <> 0) by by_run.
  assert (Hen : enabled EvTimer configured_gg11 = true) by by_run.
  destruct (proj1 (X3_enabled_events_are_handled gg11 EvTimer configured_gg11
                     Hrate) Hen) as (s' & E & L & _).
  exists s'. split; [exact E | exact L].
Defined.

Lemma X4_witness :
  exists s1,
    step gg11 (EvUsbOut (USB_STATUS_OTHER 1) 0) configured_gg11 = Some s1
    /\ g s1 = g configured_gg11.
Proof.
  assert (Ha : usb_out (hw configured_gg11) = [usbRxBuffer 0]) by by_run.
  assert (Hb : usbRxActive (g configured_gg11) = true) by by_run.
  assert (Hf : is_OK (USB_STATUS_OTHER 1) && (0 >? 0) = false) by by_run.
  destruct (X4_failed_usb_receive_is_never_rearmed gg11 configured_gg11
              (usbRxBuffer 0) (USB_STATUS_OTHER 1) 0 Ha Hb Hf)
    as (s1 & E & G & _).
  exists s1. split; [exact E | exact G].
Defined.

Lemma X5_witness :
  exists s1,
    step gg11 (EvUsbIn (USB_STATUS_OTHER 1))
      (after (uart_bytes 127 ++ uart_bytes 127)) = Some s1
    /\ g s1 = g (after (uart_bytes 127 ++ uart_bytes 127)).
Proof.
  assert (H1 : dmaRxActive (g (after (uart_bytes 127 ++ uart_bytes 127))) = false)
    by by_run.
  assert (H2 : dma_rx (hw (after (uart_bytes 127 ++ uart_bytes 127))) = [])
    by by_run.
  assert (H3 : timer (hw (after (uart_bytes 127 ++ uart_bytes 127))) = None)
    by by_run.
  assert (H4 : usb_in (hw (after (uart_bytes 127 ++ uart_bytes 127)))
               = [(uartRxBuffer 0, 127)]) by by_run.
  assert (H5 : is_OK (USB_STATUS_OTHER 1) = false) by by_run.
  destruct (X5_failed_transmit_while_paused_stalls gg11 _ _
              (USB_STATUS_OTHER 1) H1 H2 H3 H4 H5) as (s1 & E & G & _).
  exists s1. split; [exact E | exact G].
Defined.


Lemma X7_witness :
  exists s1 s2,
    step gg11 EvUartByte (after (uart_bytes 127 ++ uart_bytes 126)) = Some s1
    /\ step gg11 (EvUsbIn USB_STATUS_OK) s1 = Some s2
    /\ dma_rx (hw s2) = [uartRxBuffer 1]
    /\ usb_in (hw s2) = [(uartRxBuffer 1, 127)].
Proof.
  assert (H1 : dwDTERate (cdcLineCoding
                 (g (after (uart_bytes 127 ++ uart_bytes 126)))) <> 0) by by_run.
  assert (H2 : dma_rx (hw (after (uart_bytes 127 ++ uart_bytes 126)))
               = [uartRxBuffer 1]) by by_run.
  assert (Hs : uartRxBuffer 1
               = uartRxBuffer
                   (uartRxIndex (g (after (uart_bytes 127 ++ uart_bytes 126)))))
    by by_run.
  assert (H3 : rx_remaining (hw (after (uart_bytes 127 ++ uart_bytes 126))) = 1)
    by by_run.
  assert (H4 : dmaRxCompleted (g (after (uart_bytes 127 ++ uart_bytes 126)))
               = true) by by_run.
  assert (H5 : usbTxActive (g (after (uart_bytes 127 ++ uart_bytes 126))) = true)
    by by_run.
  assert (H6 : usb_in (hw (after (uart_bytes 127 ++ uart_bytes 126)))
               = [(uartRxBuffer 0, 127)]) by by_run.
  destruct (X7_full_buffer_waits_for_transmit_completion gg11 _ _ _
              H1 H2 Hs H3 H4 H5 H6)
    as (s1 & s2 & E1 & _ & _ & _ & _ & _ & E2 & _ & U & D & _).
  exists s1, s2. split; [exact E1 |]. split; [exact E2 |].
  split; [rewrite D | rewrite U]; vm_compute; reflexivity.
Defined.

Lemma X8_witness :
  status_of (LineCodingReceived gg11 USB_STATUS_OK 7 0 configured_gg11)
  = Some USB_STATUS_OK.
Proof.
  assert (H : is_OK USB_STATUS_OK && (7 =? 7)
              && supported (cdcLineCoding (g configured_gg11)) = true)
    by by_run.
  destruct (proj1 (X8_line_coding_accepted_iff_supported gg11 configured_gg11
                     USB_STATUS_OK 7 0) H) as (d & p & b & _ & _ & _ & E).
  rewrite E. reflexivity.
Defined.

Lemma X9_witness :
  exists r s1,
    SET_LINE_CODING gg11 [128; 37; 0; 0; 0; 3; 7] configured_gg11 = Ok r s1
    /\ get_line_coding_reply s1 = [128; 37; 0; 0; 0; 3; 7].
Proof.
  assert (Hlen : length [128; 37; 0; 0; 0; 3; 7] = 7%nat) by reflexivity.
  assert (Hb : all_bytes [128; 37; 0; 0; 0; 3; 7])
    by (repeat constructor; by_run).
  destruct (X9_get_line_coding_returns_last_payload gg11 configured_gg11
              [128; 37; 0; 0; 0; 3; 7] Hlen Hb) as (r & s1 & s2 & E & R & _).
  exists r, s1. split; [exact E | exact R].
Defined.

Lemma X10_witness :
  exists r s',
    CDC_SetupCmd gg11 (get_line_coding_setup gg11) configured_gg11 = Ok r s'
    /\ g s' = g configured_gg11.
Proof.
  destruct (X10_setup_command_never_touches_bridge gg11
              (get_line_coding_setup gg11) configured_gg11)
    as (r & s' & E & G & _).
  exists r, s'. split; [exact E | exact G].
Defined.

Lemma X11_witness :
  alternating
    (tx_sources (trace (after [EvUsbOut USB_STATUS_OK 10;
                               EvUsbOut USB_STATUS_OK 20; EvDmaTxDone]))).
Proof.
  assert (Hinit : configured gg11 4101 115200 = Some configured_gg11) by by_run.
  assert (Hrun : run gg11 [EvUsbOut USB_STATUS_OK 10;
                           EvUsbOut USB_STATUS_OK 20; EvDmaTxDone]
                   configured_gg11
                 = Some (after [EvUsbOut USB_STATUS_OK 10;
                                EvUsbOut USB_STATUS_OK 20; EvDmaTxDone]))
    by by_run.
  exact (proj1 (X11_uart_transmit_slots_alternate gg11 4101 115200
                  configured_gg11 _ Hinit (ex_intro _ _ Hrun))).
Defined.

Lemma X12_witness :
  alternating
    (usb_write_sources
       (trace (after (uart_bytes 127 ++ uart_bytes 127
                      ++ [EvUsbIn USB_STATUS_OK])))).
Proof.
  assert (Hinit : configured gg11 4101 115200 = Some configured_gg11) by by_run.
  assert (Hrun : run gg11 (uart_bytes 127 ++ uart_bytes 127
                           ++ [EvUsbIn USB_STATUS_OK]) configured_gg11
                 = Some (after (uart_bytes 127 ++ uart_bytes 127
                                ++ [EvUsbIn USB_STATUS_OK]))) by by_run.
  exact (proj1 (X12_usb_transmit_slots_alternate gg11 4101 115200
                  configured_gg11 _ Hinit (ex_intro _ _ Hrun))).
Defined.

Lemma X13_witness :
  exists s1 s2,
    CDC_StateChangeEvent gg11 USBD_STATE_ADDRESSED USBD_STATE_CONFIGURED
      deconfigured_gg11 = Ok tt s1
    /\ dma_rx (hw s1) = [uartRxBuffer 1]
    /\ run gg11 (uart_bytes 127) s1 = Some s2
    /\ usb_write_sources (trace s2)
       = [uartRxBuffer 0; uartRxBuffer 0].
Proof.
  assert (H1 : dwDTERate (cdcLineCoding (g deconfigured_gg11)) <> 0) by by_run.
  assert (H2 : dma_rx (hw deconfigured_gg11) = []) by by_run.
  destruct (X13_reconfiguration_keeps_receive_destination gg11
              deconfigured_gg11 USBD_STATE_ADDRESSED H1 H2)
    as (s1 & s2 & E & _ & _ & _ & _ & _ & T1 & D & R & T2).
  exists s1, s2. split; [exact E |].
  split; [rewrite D; vm_compute; reflexivity |].
  split; [exact R |].
  rewrite T2, T1. vm_compute. reflexivity.
Defined.

Lemma X14_witness :
  uart_to_usb_view (after [EvUsbOut USB_STATUS_OK 10])
  = uart_to_usb_view configured_gg11
  /\ usb_to_uart_full_view (after [EvUsbOut USB_STATUS_OK 10; EvUartByte])
     = usb_to_uart_full_view (after [EvUsbOut USB_STATUS_OK 10]).
Proof.
  assert (Hstep : step gg11 (EvUsbOut USB_STATUS_OK 10) configured_gg11
                  = Some (after [EvUsbOut USB_STATUS_OK 10])) by by_run.
  assert (He : is_usb_to_uart (EvUsbOut USB_STATUS_OK 10) = true) by by_run.
  assert (Hstep' : step gg11 EvUartByte (after [EvUsbOut USB_STATUS_OK 10])
                   = Some (after [EvUsbOut USB_STATUS_OK 10; EvUartByte]))
    by by_run.
  assert (He' : is_uart_to_usb EvUartByte = true) by by_run.
  assert (HP : distinct_channels gg11) by (intro H; discriminate H).
  split.
  - exact (proj1 (X14_directions_do_not_interfere gg11 _ _ _ Hstep) He).
  - exact (proj2 (X14_directions_do_not_interfere gg11 _ _ _ Hstep') HP He').
Defined.

Lemma X15_witness :
  tx_counts (trace (after [EvUsbOut USB_STATUS_OK 10;
                           EvUsbOut USB_STATUS_OK 20]))
  ++ pending_count (after [EvUsbOut USB_STATUS_OK 10;
                           EvUsbOut USB_STATUS_OK 20])
  = [9; 19].
Proof.
  assert (Hmax : CDC_USB_RX_BUF_SIZ gg11 <= 2 ^ 11) by by_run.
  assert (Hfit : Forall (packet_fits gg11)
                   [EvUsbOut USB_STATUS_OK 10; EvUsbOut USB_STATUS_OK 20])
    by (repeat constructor; by_run).
  assert (Hinit : configured gg11 4101 115200 = Some configured_gg11) by by_run.
  assert (Hrun : run gg11 [EvUsbOut USB_STATUS_OK 10; EvUsbOut USB_STATUS_OK 20]
                   configured_gg11
                 = Some (after [EvUsbOut USB_STATUS_OK 10;
                                EvUsbOut USB_STATUS_OK 20])) by by_run.
  rewrite (X15_every_packet_is_drained_once_in_order gg11 4101 115200
             configured_gg11 _ _ Hmax Hfit Hinit Hrun).
  reflexivity.
Defined.

Lemma X16_witness :
  total (usb_writes (trace (after (uart_bytes 5 ++ [EvTimer; EvTimer]
                                   ++ uart_bytes 3))))
  + buffered (after (uart_bytes 5 ++ [EvTimer; EvTimer] ++ uart_bytes 3))
  = 8.
Proof.
  assert (Hinit : configured gg11 4101 115200 = Some configured_gg11) by by_run.
  assert (Hrun : run gg11 (uart_bytes 5 ++ [EvTimer; EvTimer] ++ uart_bytes 3)
                   configured_gg11
                 = Some (after (uart_bytes 5 ++ [EvTimer; EvTimer]
                                ++ uart_bytes 3))) by by_run.
  rewrite (X16_transmitted_lengths_add_up_to_bytes_taken_in gg11 4101 115200
             configured_gg11 _ _ Hinit Hrun).
  reflexivity.
Defined.
